(** * Augmenta settings editor: the configuration document and its operations

    A shallow embedding of [src/augmenta.py], a Streamlit script that edits
    the YAML file [augmenta.yaml].  The embedding follows the script:

    - Python values, with dictionaries as association lists in insertion
      order, and the primitives the script applies to them ([in], [x[k]],
      [x[k] = v], [.get], truthiness, [str.split]), each with the
      exception CPython raises on a value of the wrong kind;
    - the YAML library as an interface (the script only calls [yaml.dump]
      and [yaml.safe_load]);
    - the world a script run acts on: Streamlit's session state, the module
      namespace, the file [augmenta.yaml], the messages shown to the user;
    - [load_settings], [save_settings], [update_and_save] and the button
      handlers, in a state-and-exception monad. *)

From Stdlib Require Import List String Ascii ZArith Bool Lia Permutation.
From Stdlib Require Import DecimalString.
Import ListNotations.
Open Scope string_scope.

Set Warnings "-register-all".

(** ** Python values *)

(** The values [yaml.safe_load] builds for the document of the script:
    [None], booleans, integers, floats (by their binary64 bit pattern, which
    the script never inspects), strings, lists and dictionaries with string
    keys.  A dictionary keeps its items in insertion order.  Values are
    trees: two positions of a document never hold the same object. *)
Inductive value : Type :=
| VNone
| VBool (b : bool)
| VInt (z : Z)
| VFloat (bits : Z)
| VStr (s : string)
| VList (items : list value)
| VDict (items : list (string * value)).

Definition dict := list (string * value).

Inductive exn : Type :=
| NameError (name : string)
| TypeError (msg : string)
| AttributeError (msg : string)
| KeyError (key : string)
| OSError (msg : string)
| YAMLError (msg : string).

(** [str(e)], as the script's f-strings print an exception. *)
Definition exn_str (e : exn) : string :=
  match e with
  | NameError n => "name '" ++ n ++ "' is not defined"
  | TypeError m => m
  | AttributeError m => m
  | KeyError k => "'" ++ k ++ "'"
  | OSError m => m
  | YAMLError m => m
  end.

(** The result of evaluating a Python expression: a value or an exception. *)
Inductive result (A : Type) : Type :=
| Ret (a : A)
| Raise (e : exn).
Arguments Ret {A} a.
Arguments Raise {A} e.

Definition type_name (v : value) : string :=
  match v with
  | VNone => "NoneType"
  | VBool _ => "bool"
  | VInt _ => "int"
  | VFloat _ => "float"
  | VStr _ => "str"
  | VList _ => "list"
  | VDict _ => "dict"
  end.

(** Truthiness, as [if loaded_settings:] tests it. *)
Definition truthy (v : value) : bool :=
  match v with
  | VNone => false
  | VBool b => b
  | VInt z => negb (Z.eqb z 0)
  | VFloat bits => negb (Z.eqb bits 0) && negb (Z.eqb bits (2 ^ 63))
  | VStr s => negb (String.eqb s "")
  | VList l => match l with [] => false | _ => true end
  | VDict d => match d with [] => false | _ => true end
  end.

Definition is_dict (v : value) : bool :=
  match v with VDict _ => true | _ => false end.

(** *** Dictionaries *)

Fixpoint dict_get (k : string) (d : dict) : option value :=
  match d with
  | [] => None
  | (k', v) :: d' => if String.eqb k k' then Some v else dict_get k d'
  end.

Definition dict_mem (k : string) (d : dict) : bool :=
  match dict_get k d with Some _ => true | None => false end.

(** [d[k] = v]: an existing key keeps its position, a new key goes last. *)
Fixpoint dict_set (k : string) (v : value) (d : dict) : dict :=
  match d with
  | [] => [(k, v)]
  | (k', v') :: d' =>
      if String.eqb k k' then (k', v) :: d' else (k', v') :: dict_set k v d'
  end.

Definition dict_keys (d : dict) : list string := map fst d.

(** *** Operators *)

(** [k in c] for a string [k]. *)
Definition py_contains (k : string) (c : value) : result bool :=
  match c with
  | VDict d => Ret (dict_mem k d)
  | VList l =>
      Ret (existsb (fun x => match x with VStr s => String.eqb s k | _ => false end) l)
  | VStr s => Ret (match index 0 k s with Some _ => true | None => false end)
  | _ => Raise (TypeError ("argument of type '" ++ type_name c ++ "' is not iterable"))
  end.

(** [c[k]] for a string [k]. *)
Definition getitem (c : value) (k : string) : result value :=
  match c with
  | VDict d =>
      match dict_get k d with
      | Some v => Ret v
      | None => Raise (KeyError k)
      end
  | VList _ => Raise (TypeError "list indices must be integers or slices, not str")
  | VStr _ => Raise (TypeError "string indices must be integers")
  | _ => Raise (TypeError ("'" ++ type_name c ++ "' object is not subscriptable"))
  end.

(** [c[k] = v] for a string [k]: the outcome, and the object [c] afterwards. *)
Definition setitem (c : value) (k : string) (v : value) : result unit * value :=
  match c with
  | VDict d => (Ret tt, VDict (dict_set k v d))
  | VList _ =>
      (Raise (TypeError "list indices must be integers or slices, not str"), c)
  | _ =>
      (Raise (TypeError ("'" ++ type_name c ++ "' object does not support item assignment")), c)
  end.

(** [c.get(k, default)]. *)
Definition py_get (c : value) (k : string) (default : value) : result value :=
  match c with
  | VDict d =>
      match dict_get k d with
      | Some v => Ret v
      | None => Ret default
      end
  | _ => Raise (AttributeError ("'" ++ type_name c ++ "' object has no attribute 'get'"))
  end.

(** A statement that mutates the object held at [c[k]]: [c[k]] is evaluated,
    [f] acts on that object, and [c] sees the change, since it holds the
    object itself. *)
Definition with_item {A : Type} (c : value) (k : string)
    (f : value -> result A * value) : result A * value :=
  match getitem c k with
  | Raise e => (Raise e, c)
  | Ret child =>
      let (r, child') := f child in
      (r, match c with
          | VDict d => VDict (dict_set k child' d)
          | _ => c
          end)
  end.

(** *** Strings *)

(** [s.split(sep)] for a one-character separator. *)
Fixpoint split (sep : ascii) (s : string) : list string :=
  match s with
  | EmptyString => [""]
  | String c s' =>
      if Ascii.eqb c sep then "" :: split sep s'
      else match split sep s' with
           | w :: ws => String c w :: ws
           | [] => [String c ""]
           end
  end.

Definition newline : ascii := ascii_of_nat 10.

(** Characters [str.strip()] removes. *)
Definition is_space (c : ascii) : bool :=
  let n := nat_of_ascii c in
  (Nat.leb 9 n && Nat.leb n 13) || (Nat.leb 28 n && Nat.leb n 32)
  || Nat.eqb n 133 || Nat.eqb n 160.

(** [bool(s.strip())]: some character of [s] is not white space. *)
Fixpoint nonblank (s : string) : bool :=
  match s with
  | EmptyString => false
  | String c s' => negb (is_space c) || nonblank s'
  end.

(** [[opt for opt in s.split("\n") if opt.strip()]]. *)
Definition option_lines (s : string) : list string :=
  filter nonblank (split newline s).

(** ** The YAML library

    The script calls [yaml.dump(data, sort_keys=...)] and
    [yaml.safe_load].  PyYAML is not part of the repository: its emitter and
    its parser are the two fields of an interface, and every statement below
    holds for whatever implements them.  What [sort_keys] does is PyYAML's
    representer: with [sort_keys=True] (the default of [yaml.dump]) the items
    of every mapping are sorted by key before they are emitted. *)

Class YamlLib : Type := {
  (** the text emitted for a document, its mappings in the order given *)
  yaml_emit : value -> string;
  (** [yaml.safe_load]: the document parsed, or the parser's exception *)
  yaml_safe_load : string -> result value
}.

Fixpoint insert_item (kv : string * value) (d : dict) : dict :=
  match d with
  | [] => [kv]
  | kv' :: d' =>
      if String.leb (fst kv) (fst kv') then kv :: d
      else kv' :: insert_item kv d'
  end.

(** [sorted(mapping.items())] on string keys. *)
Definition sort_items (d : dict) : dict := fold_right insert_item [] d.

Fixpoint sort_keys_deep (v : value) : value :=
  match v with
  | VList l => VList (map sort_keys_deep l)
  | VDict d =>
      VDict (sort_items
               (map (fun kv => match kv with
                               | (k, x) => (k, sort_keys_deep x)
                               end) d))
  | _ => v
  end.

Definition yaml_dump `{YamlLib} (sort_keys : bool) (data : value) : string :=
  yaml_emit (if sort_keys then sort_keys_deep data else data).

(** ** The world of a script run *)

(** What the script shows to the user: [st.write], [st.warning],
    [st.error], [st.success], [st.info].  Titles, headers and the layout
    calls carry no information and are left out. *)
Inductive message : Type :=
| Written (text : string)
| Warning (text : string)
| Error (text : string)
| Success (text : string)
| Info (text : string)
| Balloons.

Record world : Type := mkWorld {
  (** [st.session_state.settings], absent in a new session *)
  session_settings : option value;
  (** ['settings_loaded' in st.session_state] *)
  settings_loaded : bool;
  (** the module namespace of the running script: names and their objects *)
  globals : list (string * value);
  (** the text of [augmenta.yaml], [None] when the file does not exist *)
  disk : option string;
  (** whether [open(path, 'r')] and [open(path, 'w')] succeed *)
  readable : bool;
  writable : bool;
  (** [os.getcwd()] *)
  cwd : string;
  (** messages shown so far, oldest first *)
  shown : list message
}.

Definition set_session (s : option value) (w : world) : world :=
  mkWorld s (settings_loaded w) (globals w) (disk w) (readable w) (writable w)
          (cwd w) (shown w).
Definition set_loaded (b : bool) (w : world) : world :=
  mkWorld (session_settings w) b (globals w) (disk w) (readable w) (writable w)
          (cwd w) (shown w).
Definition set_globals (g : list (string * value)) (w : world) : world :=
  mkWorld (session_settings w) (settings_loaded w) g (disk w) (readable w)
          (writable w) (cwd w) (shown w).
Definition set_disk (f : option string) (w : world) : world :=
  mkWorld (session_settings w) (settings_loaded w) (globals w) f (readable w)
          (writable w) (cwd w) (shown w).
Definition show (m : message) (w : world) : world :=
  mkWorld (session_settings w) (settings_loaded w) (globals w) (disk w)
          (readable w) (writable w) (cwd w) (shown w ++ [m]).

(** How a piece of the script ends: normally, with an exception, or with
    Streamlit's rerun request.  [st.experimental_rerun()] raises a
    [BaseException] that [except Exception] does not catch. *)
Inductive control (A : Type) : Type :=
| Normal (a : A)
| Exception (e : exn)
| RerunScript.
Arguments Normal {A} a.
Arguments Exception {A} e.
Arguments RerunScript {A}.

Definition M (A : Type) : Type := world -> control A * world.

Definition ret {A : Type} (a : A) : M A := fun w => (Normal a, w).

Definition bind {A B : Type} (m : M A) (k : A -> M B) : M B :=
  fun w =>
    match m w with
    | (Normal a, w') => k a w'
    | (Exception e, w') => (Exception e, w')
    | (RerunScript, w') => (RerunScript, w')
    end.

Declare Scope py_scope.
Delimit Scope py_scope with py.
Notation "x <- m ;; k" := (bind m (fun x => k))
  (at level 61, m at next level, right associativity) : py_scope.
Notation "m ;; k" := (bind m (fun _ => k))
  (at level 61, right associativity) : py_scope.
Open Scope py_scope.

Definition raise {A : Type} (e : exn) : M A := fun w => (Exception e, w).

Definition lift {A : Type} (r : result A) : M A :=
  match r with
  | Ret a => ret a
  | Raise e => raise e
  end.

Definition control_of {A : Type} (r : result A) : control A :=
  match r with
  | Ret a => Normal a
  | Raise e => Exception e
  end.

(** [try: body  except Exception as e: handler]. *)
Definition try_except {A : Type} (body : M A) (handler : exn -> M A) : M A :=
  fun w =>
    match body w with
    | (Exception e, w') => handler e w'
    | other => other
    end.

Definition when (b : bool) (m : M unit) : M unit := if b then m else ret tt.

Definition st_write (t : string) : M unit := fun w => (Normal tt, show (Written t) w).
Definition st_warning (t : string) : M unit := fun w => (Normal tt, show (Warning t) w).
Definition st_error (t : string) : M unit := fun w => (Normal tt, show (Error t) w).
Definition st_success (t : string) : M unit := fun w => (Normal tt, show (Success t) w).
Definition st_info (t : string) : M unit := fun w => (Normal tt, show (Info t) w).
Definition st_balloons : M unit := fun w => (Normal tt, show Balloons w).
Definition st_experimental_rerun {A : Type} : M A := fun w => (RerunScript, w).

(** *** The file *)

Definition yaml_path : string := "augmenta.yaml".

Definition os_path_exists : M bool :=
  fun w => (Normal (match disk w with Some _ => true | None => false end), w).

Definition os_path_abspath (path : string) : M string :=
  fun w => (Normal (cwd w ++ "/" ++ path), w).

(** [with open(yaml_path, 'r') as file: file.read()]. *)
Definition read_file : M string :=
  fun w =>
    match disk w with
    | None =>
        (Exception (OSError ("[Errno 2] No such file or directory: '" ++ yaml_path ++ "'")), w)
    | Some text =>
        if readable w then (Normal text, w)
        else (Exception (OSError ("[Errno 13] Permission denied: '" ++ yaml_path ++ "'")), w)
    end.

(** [with open(yaml_path, 'w') as file:] followed by the write of [text]. *)
Definition write_file (text : string) : M unit :=
  fun w =>
    if writable w then (Normal tt, set_disk (Some text) w)
    else (Exception (OSError ("[Errno 13] Permission denied: '" ++ yaml_path ++ "'")), w).

(** *** The module namespace *)

(** Reading a module-level name: [NameError] when nothing bound it. *)
Definition read_global (name : string) : M value :=
  fun w =>
    match dict_get name (globals w) with
    | Some v => (Normal v, w)
    | None => (Exception (NameError name), w)
    end.

(** A statement that acts on the object a module-level name refers to. *)
Definition on_global {A : Type} (name : string)
    (f : value -> result A * value) : M A :=
  fun w =>
    match dict_get name (globals w) with
    | None => (Exception (NameError name), w)
    | Some v =>
        let (r, v') := f v in
        let w' := set_globals (dict_set name v' (globals w)) w in
        match r with
        | Ret a => (Normal a, w')
        | Raise e => (Exception e, w')
        end
    end.

(** The session's document, [st.session_state.settings]. *)
Definition read_session : M value :=
  fun w =>
    match session_settings w with
    | Some v => (Normal v, w)
    | None => (Exception (AttributeError "st.session_state has no attribute 'settings'"), w)
    end.

Definition on_session {A : Type} (f : value -> result A * value) : M A :=
  fun w =>
    match session_settings w with
    | None => (Exception (AttributeError "st.session_state has no attribute 'settings'"), w)
    | Some v =>
        let (r, v') := f v in
        let w' := set_session (Some v') w in
        match r with
        | Ret a => (Normal a, w')
        | Raise e => (Exception e, w')
        end
    end.

Definition assign_session (v : value) : M unit :=
  fun w => (Normal tt, set_session (Some v) w).

Definition assign_loaded (b : bool) : M unit :=
  fun w => (Normal tt, set_loaded b w).

(** ** The widgets

    What the user did in the page during one run of the script: for every
    widget, named by its key or else its label, the value the widget returns
    (given the value the script offers as initial content). *)
Inductive field_kind : Type := KStr | KInt | KFloat | KBool | KList.

(** The options of the "Field Type" select box, line 256. *)
Definition kind_name (k : field_kind) : string :=
  match k with
  | KStr => "str"
  | KInt => "int"
  | KFloat => "float"
  | KBool => "bool"
  | KList => "list"
  end.

Record widgets : Type := {
  button : string -> bool;
  text_input : string -> value -> string;
  text_area : string -> value -> string;
  checkbox : string -> value -> bool;
  selectbox_kind : string -> field_kind;
  download_button : string -> string -> bool;
  file_uploader : string -> option string
}.

(** ** The script *)

(** The literal of lines 10-38: the fields of [structure], then the
    document. *)
Definition default_structure : dict :=
  [ ("industry",
      VDict
        [ ("type", VStr "str");
          ("description",
            VStr "What industry is this organisation or person associated with?");
          ("options",
            VList [ VStr "Agriculture, Forestry and Fishing";
                    VStr "Manufacturing";
                    VStr "Other" ]) ]);
    ("explanation",
      VDict [ ("type", VStr "str");
              ("description", VStr "A brief explanation") ]) ].

Definition default_items : dict :=
  [ ("input_csv", VStr "data/input.csv");
    ("output_csv", VStr "data/output.csv");
    ("model", VDict [ ("provider", VStr "openai"); ("name", VStr "gpt-4o-mini") ]);
    ("search", VDict [ ("engine", VStr "google"); ("results", VInt 10) ]);
    ("prompt",
      VDict
        [ ("system", VStr "You are an expert researcher.");
          ("user",
            VStr ("# Instructions" ++ String newline (String newline "")
                  ++ "Research the following entity...")) ]);
    ("structure", VDict default_structure);
    ("examples", VList []);
    ("logfire", VBool false) ].

Definition default_settings : value := VDict default_items.

Definition nat_str (n : nat) : string := NilZero.string_of_uint (Nat.to_uint n).

(** Every name a statement at module level of [augmenta.py] binds (imports,
    [def], assignment, [for] and [with] targets, [except ... as]), with the
    line of its first binding. *)
Definition module_bindings : list (nat * string) :=
  [ (1, "st"); (2, "yaml"); (3, "os"); (4, "json"); (5, "deepcopy");
    (8, "load_settings"); (61, "save_settings"); (99, "update_and_save");
    (132, "col1"); (132, "col2"); (135, "input_csv"); (136, "uploaded_file");
    (139, "output_csv"); (150, "model_settings"); (153, "model_provider");
    (160, "model_name"); (173, "search_settings"); (176, "search_engine");
    (183, "search_results"); (197, "prompt_settings"); (202, "system_prompt");
    (203, "user_prompt"); (219, "logfire"); (232, "structure");
    (237, "field_name"); (237, "field_config"); (240, "field_desc");
    (244, "options_str"); (245, "new_options"); (253, "new_field_name");
    (256, "new_field_type"); (258, "new_field_desc"); (260, "has_options");
    (261, "new_field_options"); (264, "new_options_str"); (295, "examples");
    (297, "i"); (297, "example"); (299, "input_val"); (300, "output");
    (305, "field_value"); (307, "new_value"); (327, "new_input");
    (331, "new_output"); (334, "field_type"); (379, "raw_yaml");
    (383, "parsed_yaml"); (386, "e"); (403, "uploaded_config");
    (407, "imported_settings"); (447, "update_result") ].

(** A namespace the script can have: it holds no name that no statement of
    the script binds.  (Streamlit runs the script in a new module each time,
    and [saved_settings] is not a builtin.) *)
Definition namespace_of_script (w : world) : Prop :=
  forall name, In name (dict_keys (globals w)) -> In name (map snd module_bindings).

Section Script.

Context {Y : YamlLib}.

(** Lines 8-58. *)
Definition load_settings : M value :=
  present <- os_path_exists ;;
  if present then
    try_except
      (text <- read_file ;;
       loaded_settings <- lift (yaml_safe_load text) ;;
       if truthy loaded_settings then ret loaded_settings
       else ret default_settings)
      (fun e =>
         st_warning ("Error loading settings: " ++ exn_str e) ;;
         ret default_settings)
  else
    try_except
      (write_file (yaml_dump false default_settings) ;;
       ret default_settings)
      (fun e =>
         st_warning ("Error creating default settings file: " ++ exn_str e) ;;
         ret default_settings).

(** Lines 61-91. *)
Definition save_settings (settings : value) : M bool :=
  try_except
    (path <- os_path_abspath yaml_path ;;
     st_write ("Attempting to save to " ++ path) ;;
     match settings with
     | VNone =>
         st_error "Cannot save None settings" ;;
         ret false
     | _ =>
         write_file (yaml_dump false settings) ;;
         present <- os_path_exists ;;
         if present then
           content <- read_file ;;
           if negb (String.eqb content "") then
             st_success ("Settings saved successfully! File size: "
                         ++ nat_str (String.length content) ++ " bytes") ;;
             ret true
           else
             st_error "File was created but is empty" ;;
             ret false
         else
           st_error "File was not created" ;;
           ret false
     end)
    (fun e =>
       st_error ("Error saving settings: " ++ exn_str e) ;;
       ret false).

(** Lines 94-96. *)
Definition startup : M unit :=
  fun w =>
    if settings_loaded w then (Normal tt, w)
    else (settings <- load_settings ;;
          assign_session settings ;;
          assign_loaded true) w.

(** The loop of lines 104-107 followed by line 110, on the object [current]:
    the outcome, and [current] as the statements leave it. *)
Fixpoint navigate_and_assign (current : value) (path : list string)
    (last_key : string) (v : value) : result unit * value :=
  match path with
  | [] => setitem current last_key v
  | k :: path' =>
      match py_contains k current with
      | Raise e => (Raise e, current)
      | Ret present =>
          let (r, current1) :=
            if present then (Ret tt, current)
            else setitem current k (VDict []) in
          match r with
          | Raise e => (Raise e, current1)
          | Ret _ =>
              with_item current1 k
                (fun child => navigate_and_assign child path' last_key v)
          end
      end
  end.

(** Lines 99-114. *)
Definition update_and_save (key : string) (v : value) : M bool :=
  let keys := split "." key in
  on_session (fun current =>
                navigate_and_assign current (removelast keys) (last keys "") v) ;;
  settings <- read_session ;;
  save_settings settings.

(** Lines 125-127. *)
Definition force_reload (u : widgets) : M unit :=
  when (button u "Force Reload Settings")
    (settings <- load_settings ;;
     assign_session settings ;;
     st_experimental_rerun).

(** Lines 197-206: the initial content of the two prompt text areas. *)
Definition prompt_defaults : M (value * value) :=
  settings <- read_session ;;
  prompt_settings <- lift (py_get settings "prompt" (VDict [])) ;;
  match prompt_settings with
  | VStr _ => ret (VStr "", prompt_settings)
  | _ =>
      system_prompt <- lift (py_get prompt_settings "system" (VStr "")) ;;
      user_prompt <- lift (py_get prompt_settings "user" (VStr "")) ;;
      ret (system_prompt, user_prompt)
  end.

(** Lines 222-223, on the session's document. *)
Definition reset_legacy_prompt (settings : value) : result unit * value :=
  match py_contains "prompt" settings with
  | Raise e => (Raise e, settings)
  | Ret present =>
      if negb present then setitem settings "prompt" (VDict [])
      else
        match getitem settings "prompt" with
        | Raise e => (Raise e, settings)
        | Ret (VStr _) => setitem settings "prompt" (VDict [])
        | Ret _ => (Ret tt, settings)
        end
  end.

(** Lines 222-227, the body of the "Save Prompt Settings" button. *)
Definition save_prompt_settings (system_prompt user_prompt : string)
    (logfire : bool) : M unit :=
  on_session reset_legacy_prompt ;;
  on_session (fun s =>
    with_item s "prompt" (fun p => setitem p "system" (VStr system_prompt))) ;;
  on_session (fun s =>
    with_item s "prompt" (fun p => setitem p "user" (VStr user_prompt))) ;;
  on_session (fun s => setitem s "logfire" (VBool logfire)) ;;
  settings <- read_session ;;
  _ <- save_settings settings ;;
  ret tt.

(** Lines 197-227. *)
Definition prompt_configuration (u : widgets) : M (string * string * bool) :=
  defaults <- prompt_defaults ;;
  let system_prompt := text_area u "System Prompt" (fst defaults) in
  let user_prompt := text_area u "User Prompt" (snd defaults) in
  settings <- read_session ;;
  logfire_default <- lift (py_get settings "logfire" (VBool false)) ;;
  let logfire := checkbox u "Enable LogFire" logfire_default in
  when (button u "Save Prompt Settings")
    (save_prompt_settings system_prompt user_prompt logfire) ;;
  ret (system_prompt, user_prompt, logfire).

(** *** Output Structure, lines 229-290 *)

(** Lines 261-265. *)
Definition new_field_options_of (has_options : bool) (new_options_str : string)
    : list string :=
  if has_options then option_lines new_options_str else [].

(** Lines 271-284, the body of the "Add Field" button. *)
Definition add_field (new_field_name : string) (new_field_type : field_kind)
    (new_field_desc : string) (new_field_options : list string) : M unit :=
  present <- on_global "saved_settings"
               (fun saved => (py_contains "structure" saved, saved)) ;;
  when (negb present)
    (on_global "saved_settings"
       (fun saved => setitem saved "structure" (VDict []))) ;;
  on_global "saved_settings"
    (fun saved =>
       with_item saved "structure"
         (fun structure =>
            setitem structure new_field_name
              (VDict [ ("type", VStr (kind_name new_field_type));
                       ("description", VStr new_field_desc) ]))) ;;
  when (match new_field_options with [] => false | _ => true end)
    (on_global "saved_settings"
       (fun saved =>
          with_item saved "structure"
            (fun structure =>
               with_item structure new_field_name
                 (fun field =>
                    setitem field "options"
                      (VList (map VStr new_field_options)))))) ;;
  saved <- read_global "saved_settings" ;;
  saved_ok <- save_settings saved ;;
  when saved_ok
    (st_success ("Field '" ++ new_field_name ++ "' added successfully!") ;;
     st_experimental_rerun).

(** Lines 288-290. *)
Definition save_structure_changes : M unit :=
  saved <- read_global "saved_settings" ;;
  saved_ok <- save_settings saved ;;
  when saved_ok (st_success "Structure updated successfully!").

(** Lines 234-246 draw one expander per field; what they do is Streamlit's
    and is left open. *)
Variable render_fields : widgets -> value -> M unit.

(** Lines 229-290. *)
Definition output_structure (u : widgets) : M unit :=
  saved <- read_global "saved_settings" ;;
  structure <- lift (py_get saved "structure" (VDict [])) ;;
  render_fields u structure ;;
  let new_field_name := text_input u "Field Name" (VStr "") in
  let new_field_type := selectbox_kind u "Field Type" in
  let new_field_desc := text_area u "Field Description" (VStr "") in
  let has_options := checkbox u "Add Options" (VBool false) in
  let new_field_options :=
    new_field_options_of has_options
      (text_area u "Options (one per line)" (VStr "")) in
  when (button u "Add Field" && negb (String.eqb new_field_name ""))
    (add_field new_field_name new_field_type new_field_desc new_field_options) ;;
  when (button u "Save Structure Changes") save_structure_changes.

(** *** Examples, lines 292-373 *)

(** Lines 297-373, everything after the first statement, left open. *)
Variable examples_body : widgets -> value -> M unit.

Definition examples_section (u : widgets) : M unit :=
  saved <- read_global "saved_settings" ;;
  examples <- lift (py_get saved "examples" (VList [])) ;;
  examples_body u examples.

(** *** Advanced Configuration, lines 375-412 *)

(** Lines 382-387, the body of the "Save Raw YAML" button. *)
Definition save_raw_yaml (raw_yaml : string) : M unit :=
  try_except
    (parsed_yaml <- lift (yaml_safe_load raw_yaml) ;;
     saved_ok <- save_settings parsed_yaml ;;
     when saved_ok (st_success "YAML configuration saved successfully!"))
    (fun e => st_error ("Error parsing YAML: " ++ exn_str e)).

(** Line 397, the data of the download button: [yaml.dump(saved_settings)]. *)
Definition export : M string :=
  saved <- read_global "saved_settings" ;;
  ret (yaml_dump true saved).

(** Lines 406-412, the body of the "Import Configuration" button. *)
Definition import_configuration (uploaded_config : string) : M unit :=
  try_except
    (imported_settings <- lift (yaml_safe_load uploaded_config) ;;
     saved_ok <- save_settings imported_settings ;;
     when saved_ok
       (st_success "Configuration imported successfully!" ;;
        st_experimental_rerun))
    (fun e => st_error ("Error importing configuration: " ++ exn_str e)).

(** Lines 375-412. *)
Definition advanced_configuration (u : widgets) : M unit :=
  shown_yaml <- export ;;
  let raw_yaml := text_area u "Edit Raw YAML" (VStr shown_yaml) in
  when (button u "Save Raw YAML") (save_raw_yaml raw_yaml) ;;
  data <- export ;;
  when (download_button u "Download Configuration" data)
    (st_info "Configuration downloaded") ;;
  match file_uploader u "Upload Configuration" with
  | Some uploaded_config =>
      when (button u "Import Configuration")
        (import_configuration uploaded_config)
  | None => ret tt
  end.

(** Lines 445-451, the "Run" button. *)
Definition run_button (u : widgets) : M unit :=
  when (button u "Run")
    (settings <- read_session ;;
     update_result <- save_settings settings ;;
     if update_result then st_info "Starting process with current configuration..."
     else st_error "Failed to save settings before running").

End Script.

(** ** The other buttons of the script *)

(** The options of the two select boxes of lines 153-157 and 176-180. *)
Inductive provider : Type := Openai | GoogleModel | Azure | Anthropic.

Definition provider_name (p : provider) : string :=
  match p with
  | Openai => "openai"
  | GoogleModel => "google"
  | Azure => "azure"
  | Anthropic => "anthropic"
  end.

Inductive engine : Type := GoogleSearch | Bing | Duckduckgo | Brave.

Definition engine_name (e : engine) : string :=
  match e with
  | GoogleSearch => "google"
  | Bing => "bing"
  | Duckduckgo => "duckduckgo"
  | Brave => "brave"
  end.

(** [if key not in settings: settings[key] = {}], as at lines 163-164,
    189-190, 421-422 and 426-427. *)
Definition ensure_mapping (key : string) (settings : value)
    : result unit * value :=
  match py_contains key settings with
  | Raise e => (Raise e, settings)
  | Ret present =>
      if present then (Ret tt, settings)
      else setitem settings key (VDict [])
  end.


(** ["\n".join(options)], line 244. *)
Definition options_text (options : list string) : string :=
  String.concat (String newline "") options.

(** The widgets of the "Add New Example" form, lines 333-358, named by
    their key: what the select box returns for the options offered, and
    what the text area, the number input and the check box return. *)
Record example_widgets : Type := {
  ex_selectbox : string -> value -> value;
  ex_text_area : string -> string;
  ex_number_input : string -> value;
  ex_checkbox : string -> bool
}.

(** Lines 334-358 for one field: the value the form contributes to
    [new_output], or nothing for a field of another type. *)
Definition new_output_entry (ew : example_widgets) (field_name : string)
    (field_config : value) : result (option value) :=
  let key := "new_example_" ++ field_name in
  match py_get field_config "type" (VStr "str") with
  | Raise e => Raise e
  | Ret (VStr field_type) =>
      if String.eqb field_type "str" then
        match py_contains "options" field_config with
        | Raise e => Raise e
        | Ret true =>
            match getitem field_config "options" with
            | Raise e => Raise e
            | Ret options => Ret (Some (ex_selectbox ew key options))
            end
        | Ret false => Ret (Some (VStr (ex_text_area ew key)))
        end
      else if String.eqb field_type "int" || String.eqb field_type "float" then
        Ret (Some (ex_number_input ew key))
      else if String.eqb field_type "bool" then
        Ret (Some (VBool (ex_checkbox ew key)))
      else Ret None
  | Ret _ => Ret None
  end.

(** The loop of lines 333-358 over [structure.items()]. *)
Fixpoint new_output_loop (ew : example_widgets) (items : dict)
    (new_output : dict) : result dict :=
  match items with
  | [] => Ret new_output
  | (field_name, field_config) :: items' =>
      match new_output_entry ew field_name field_config with
      | Raise e => Raise e
      | Ret (Some x) =>
          new_output_loop ew items' (dict_set field_name x new_output)
      | Ret None => new_output_loop ew items' new_output
      end
  end.

(** Lines 330-358: [new_output] for the fields of [structure]. *)
Definition new_output_of (ew : example_widgets) (structure : value)
    : result dict :=
  match structure with
  | VDict items => new_output_loop ew items []
  | _ =>
      Raise (AttributeError ("'" ++ type_name structure ++ "' object has no attribute 'items'"))
  end.

Section Buttons.

Context {Y : YamlLib}.

(** Lines 142-144, the body of the "Save File Paths" button. *)
Definition save_file_paths (input_csv output_csv : string) : M unit :=
  on_session (fun s => setitem s "input_csv" (VStr input_csv)) ;;
  on_session (fun s => setitem s "output_csv" (VStr output_csv)) ;;
  settings <- read_session ;;
  _ <- save_settings settings ;;
  ret tt.

(** Lines 163-167, the body of the "Save Model Settings" button. *)
Definition save_model_settings (model_provider : provider)
    (model_name : string) : M unit :=
  on_session (ensure_mapping "model") ;;
  on_session (fun s =>
    with_item s "model"
      (fun m => setitem m "provider" (VStr (provider_name model_provider)))) ;;
  on_session (fun s =>
    with_item s "model" (fun m => setitem m "name" (VStr model_name))) ;;
  settings <- read_session ;;
  _ <- save_settings settings ;;
  ret tt.

(** Lines 189-193, the body of the "Save Search Settings" button;
    [search_results] is the integer [int(search_results)]. *)
Definition save_search_settings (search_engine : engine)
    (search_results : Z) : M unit :=
  on_session (ensure_mapping "search") ;;
  on_session (fun s =>
    with_item s "search"
      (fun m => setitem m "engine" (VStr (engine_name search_engine)))) ;;
  on_session (fun s =>
    with_item s "search" (fun m => setitem m "results" (VInt search_results))) ;;
  settings <- read_session ;;
  _ <- save_settings settings ;;
  ret tt.

(** Lines 418-441, the body of the "Save All Configuration" button. *)
Definition save_all_configuration (input_csv output_csv : string)
    (model_provider : provider) (model_name : string)
    (search_engine : engine) (search_results : Z)
    (system_prompt user_prompt : string) (logfire : bool) : M unit :=
  on_session (fun s => setitem s "input_csv" (VStr input_csv)) ;;
  on_session (fun s => setitem s "output_csv" (VStr output_csv)) ;;
  on_session (ensure_mapping "model") ;;
  on_session (fun s =>
    with_item s "model"
      (fun m => setitem m "provider" (VStr (provider_name model_provider)))) ;;
  on_session (fun s =>
    with_item s "model" (fun m => setitem m "name" (VStr model_name))) ;;
  on_session (ensure_mapping "search") ;;
  on_session (fun s =>
    with_item s "search"
      (fun m => setitem m "engine" (VStr (engine_name search_engine)))) ;;
  on_session (fun s =>
    with_item s "search" (fun m => setitem m "results" (VInt search_results))) ;;
  on_session reset_legacy_prompt ;;
  on_session (fun s =>
    with_item s "prompt" (fun p => setitem p "system" (VStr system_prompt))) ;;
  on_session (fun s =>
    with_item s "prompt" (fun p => setitem p "user" (VStr user_prompt))) ;;
  on_session (fun s => setitem s "logfire" (VBool logfire)) ;;
  settings <- read_session ;;
  saved_ok <- save_settings settings ;;
  when saved_ok
    (st_balloons ;;
     st_success "All settings saved successfully!").


End Buttons.

(** ** A YAML library to run the script on

    A small implementation of the interface, for the closed examples below:
    documents in YAML's flow style, which is JSON's syntax.  PyYAML's own
    emitter lays mappings out in block style, so the bytes it writes differ
    from these; the examples use the texts only through what both read from
    them.  Strings are double-quoted with the escapes for the quote, the
    backslash and the line feed; a float is written by its bit pattern
    after the tag [!bits], a notation of this implementation only. *)
Module FlowYaml.

Definition quote : ascii := ascii_of_nat 34.
Definition backslash : ascii := ascii_of_nat 92.

Fixpoint escape (s : string) : string :=
  match s with
  | EmptyString => ""
  | String c s' =>
      if Ascii.eqb c quote then String backslash (String quote (escape s'))
      else if Ascii.eqb c backslash then String backslash (String backslash (escape s'))
      else if Ascii.eqb c newline then String backslash (String "n" (escape s'))
      else String c (escape s')
  end.

Definition quoted (s : string) : string :=
  String quote (escape s ++ String quote "").

Definition int_str (z : Z) : string :=
  match z with
  | Zneg p => "-" ++ nat_str (Pos.to_nat p)
  | _ => nat_str (Z.to_nat z)
  end.

Fixpoint join (sep : string) (l : list string) : string :=
  match l with
  | [] => ""
  | [x] => x
  | x :: l' => x ++ sep ++ join sep l'
  end.

Fixpoint emit (v : value) : string :=
  match v with
  | VNone => "null"
  | VBool true => "true"
  | VBool false => "false"
  | VInt z => int_str z
  | VFloat bits => "!bits " ++ int_str bits
  | VStr s => quoted s
  | VList l => "[" ++ join ", " (map emit l) ++ "]"
  | VDict d =>
      "{" ++ join ", " (map (fun kv => match kv with
                                       | (k, x) => quoted k ++ ": " ++ emit x
                                       end) d) ++ "}"
  end.

Fixpoint skip_ws (s : string) : string :=
  match s with
  | String c s' => if is_space c then skip_ws s' else s
  | EmptyString => s
  end.

(** The text after an opening quote: the string read and what follows the
    closing quote. *)
Fixpoint read_string (s : string) : option (string * string) :=
  match s with
  | EmptyString => None
  | String c s' =>
      if Ascii.eqb c quote then Some ("", s')
      else if Ascii.eqb c backslash then
        match s' with
        | String e s'' =>
            let c' := if Ascii.eqb e "n" then newline else e in
            match read_string s'' with
            | Some (r, rest) => Some (String c' r, rest)
            | None => None
            end
        | EmptyString => None
        end
      else
        match read_string s' with
        | Some (r, rest) => Some (String c r, rest)
        | None => None
        end
  end.

Definition digit_of (c : ascii) : option nat :=
  let n := nat_of_ascii c in
  if Nat.leb 48 n && Nat.leb n 57 then Some (n - 48) else None.

Fixpoint read_digits (acc : nat) (s : string) : nat * string :=
  match s with
  | String c s' =>
      match digit_of c with
      | Some d => read_digits (10 * acc + d) s'
      | None => (acc, s)
      end
  | EmptyString => (acc, s)
  end.

Definition read_int (s : string) : option (Z * string) :=
  match s with
  | String "-" (String c r as s') =>
      match digit_of c with
      | Some _ => let (n, rest) := read_digits 0 s' in Some (- Z.of_nat n, rest)%Z
      | None => None
      end
  | String c _ =>
      match digit_of c with
      | Some _ => let (n, rest) := read_digits 0 s in Some (Z.of_nat n, rest)
      | None => None
      end
  | EmptyString => None
  end.

Definition strip_prefix (p s : string) : option string :=
  if prefix p s then Some (substring (String.length p) (String.length s) s)
  else None.

Fixpoint read_value (fuel : nat) (s : string) : option (value * string) :=
  match fuel with
  | O => None
  | S fuel' =>
      match skip_ws s with
      | String "{" r =>
          match skip_ws r with
          | String "}" rest => Some (VDict [], rest)
          | _ => read_members fuel' r []
          end
      | String "[" r =>
          match skip_ws r with
          | String "]" rest => Some (VList [], rest)
          | _ => read_elements fuel' r []
          end
      | String c r as t =>
          if Ascii.eqb c quote then
            match read_string r with
            | Some (x, rest) => Some (VStr x, rest)
            | None => None
            end
          else
            match strip_prefix "null" t, strip_prefix "true" t,
                  strip_prefix "false" t, strip_prefix "!bits " t with
            | Some rest, _, _, _ => Some (VNone, rest)
            | _, Some rest, _, _ => Some (VBool true, rest)
            | _, _, Some rest, _ => Some (VBool false, rest)
            | _, _, _, Some rest =>
                match read_int rest with
                | Some (z, rest') => Some (VFloat z, rest')
                | None => None
                end
            | _, _, _, _ =>
                match read_int t with
                | Some (z, rest) => Some (VInt z, rest)
                | None => None
                end
            end
      | EmptyString => None
      end
  end

with read_members (fuel : nat) (s : string) (acc : dict) : option (value * string) :=
  match fuel with
  | O => None
  | S fuel' =>
      match skip_ws s with
      | String c r =>
          if Ascii.eqb c quote then
            match read_string r with
            | Some (k, after_key) =>
                match skip_ws after_key with
                | String ":" after_colon =>
                    match read_value fuel' after_colon with
                    | Some (x, after_value) =>
                        let acc' := dict_set k x acc in
                        match skip_ws after_value with
                        | String "," more => read_members fuel' more acc'
                        | String "}" rest => Some (VDict acc', rest)
                        | _ => None
                        end
                    | None => None
                    end
                | _ => None
                end
            | None => None
            end
          else None
      | EmptyString => None
      end
  end

with read_elements (fuel : nat) (s : string) (acc : list value) : option (value * string) :=
  match fuel with
  | O => None
  | S fuel' =>
      match read_value fuel' s with
      | Some (x, after_value) =>
          match skip_ws after_value with
          | String "," more => read_elements fuel' more (acc ++ [x])
          | String "]" rest => Some (VList (acc ++ [x]), rest)
          | _ => None
          end
      | None => None
      end
  end.

(** An empty stream is the document [None]. *)
Definition safe_load (text : string) : result value :=
  match skip_ws text with
  | EmptyString => Ret VNone
  | _ =>
      match read_value (S (String.length text)) text with
      | Some (v, rest) =>
          match skip_ws rest with
          | EmptyString => Ret v
          | _ => Raise (YAMLError "expected the end of the document")
          end
      | None => Raise (YAMLError "could not read a flow-style document")
      end
  end.

End FlowYaml.

Definition flow_yaml : YamlLib := {|
  yaml_emit := FlowYaml.emit;
  yaml_safe_load := FlowYaml.safe_load
|}.

(** ** Worlds for the examples *)

(** A new session in a directory without [augmenta.yaml]. *)
Definition fresh_world : world :=
  mkWorld None false [] None true true "/srv/augmenta" [].

(** A session that has loaded [doc]. *)
Definition world_with_session (doc : value) : world :=
  mkWorld (Some doc) true [] None true true "/srv/augmenta" [].

(** A run in which [saved_settings] names [doc] (which no run of the script
    as written reaches), the session holding the default document. *)
Definition world_with_saved (doc : value) : world :=
  mkWorld (Some default_settings) true [ ("saved_settings", doc) ] None
          true true "/srv/augmenta" [].

(** A run of the script as written, after the Basic Configuration section:
    the namespace holds names the script binds. *)
Definition world_of_script : world :=
  mkWorld (Some default_settings) true
          [ ("input_csv", VStr "data/input.csv");
            ("output_csv", VStr "data/output.csv");
            ("logfire", VBool false) ]
          None true true "/srv/augmenta" [].

(** A session whose file holds an empty mapping. *)
Definition world_with_empty_file : world :=
  mkWorld None false [] (Some "{}") true true "/srv/augmenta" [].

(** A session that has loaded [doc], in a directory where the file cannot
    be written, or cannot be read back. *)
Definition read_only_world (doc : value) : world :=
  mkWorld (Some doc) true [] None true false "/srv/augmenta" [].

Definition write_only_world (doc : value) : world :=
  mkWorld (Some doc) true [] None false true "/srv/augmenta" [].

(** A new session in a directory where [augmenta.yaml] holds [text]. *)
Definition world_with_file (text : string) : world :=
  mkWorld None false [] (Some text) true true "/srv/augmenta" [].

Definition no_rendering (u : widgets) (v : value) : M unit := ret tt.

(** The user presses one button and touches nothing else. *)
Definition pressing (label : string) : widgets := {|
  button := fun l => String.eqb l label;
  text_input := fun _ _ => "";
  text_area := fun _ _ => "";
  checkbox := fun _ _ => false;
  selectbox_kind := fun _ => KStr;
  download_button := fun _ _ => false;
  file_uploader := fun _ => None
|}.

(** The "Add New Example" form left as it is drawn. *)
Definition untouched_form : example_widgets := {|
  ex_selectbox := fun _ options =>
                    match options with
                    | VList (x :: _) => x
                    | _ => VNone
                    end;
  ex_text_area := fun _ => "";
  ex_number_input := fun _ => VFloat 0;
  ex_checkbox := fun _ => false
|}.

Definition idle_widgets : widgets := {|
  button := fun _ => false;
  text_input := fun _ _ => "";
  text_area := fun _ _ => "";
  checkbox := fun _ _ => false;
  selectbox_kind := fun _ => KStr;
  download_button := fun _ _ => false;
  file_uploader := fun _ => None
|}.

(** ** Observing a document *)

(** The value at a path of keys, [None] when the path leaves the document. *)
Fixpoint lookup_path (path : list string) (v : value) : option value :=
  match path with
  | [] => Some v
  | k :: path' =>
      match v with
      | VDict d =>
          match dict_get k d with
          | Some x => lookup_path path' x
          | None => None
          end
      | _ => None
      end
  end.

(** The value at a path of the session's document. *)
Definition session_at (w : world) (path : list string) : option value :=
  match session_settings w with
  | Some doc => lookup_path path doc
  | None => None
  end.



(** What [save_settings] answers, and the file it leaves: [None] is refused,
    any other document is written when the file can be opened for writing,
    and the answer is [True] when the text read back is not empty. *)
Definition save_ok `{YamlLib} (settings : value) (w : world) : bool :=
  match settings with
  | VNone => false
  | _ =>
      writable w && readable w
      && negb (String.eqb (yaml_dump false settings) "")
  end.

Definition disk_after_save `{YamlLib} (settings : value) (w : world)
    : option string :=
  match settings with
  | VNone => disk w
  | _ => if writable w then Some (yaml_dump false settings) else disk w
  end.


(** Statements on an object, one after the other: the second runs when the
    first did not raise. *)
Definition then_stmt (f g : value -> result unit * value)
    : value -> result unit * value :=
  fun doc =>
    let (r, doc1) := f doc in
    match r with
    | Ret _ => g doc1
    | Raise e => (Raise e, doc1)
    end.

(** The character [c] occurs in [s]. *)
Fixpoint has_char (c : ascii) (s : string) : bool :=
  match s with
  | EmptyString => false
  | String c' s' => Ascii.eqb c' c || has_char c s'
  end.

(** A list of statements on an object, in order. *)
Fixpoint then_all (stmts : list (value -> result unit * value))
    : value -> result unit * value :=
  match stmts with
  | [] => fun doc => (Ret tt, doc)
  | f :: stmts' => then_stmt f (then_all stmts')
  end.

(** A list of statements on the session's document, then [k]. *)
Fixpoint on_session_all {B : Type} (stmts : list (value -> result unit * value))
    (k : M B) : M B :=
  match stmts with
  | [] => k
  | f :: stmts' => on_session f ;; on_session_all stmts' k
  end.

(** Buttons pressed one after the other, each one a list of statements on
    the session's document followed by [save_settings]. *)
Fixpoint press_all `{YamlLib} (buttons : list (list (value -> result unit * value)))
    : M unit :=
  match buttons with
  | [] => ret tt
  | stmts :: rest =>
      match rest with
      | [] =>
          on_session_all stmts
            (settings <- read_session ;; _ <- save_settings settings ;; ret tt)
      | _ =>
          on_session_all stmts
            (settings <- read_session ;; _ <- save_settings settings ;; ret tt) ;;
          press_all rest
      end
  end.

(** What [update_and_save(key, v)] does to the document before it saves. *)
Definition assign (key : string) (v : value) (doc : value)
    : result unit * value :=
  navigate_and_assign doc (removelast (split "." key)) (last (split "." key) "") v.

(** Navigation along [path] meets only mappings: the object is a mapping,
    and so is every value the path reaches. *)
Fixpoint navigable (path : list string) (c : value) : bool :=
  match c with
  | VDict d =>
      match path with
      | [] => true
      | k :: path' =>
          match dict_get k d with
          | Some x => navigable path' x
          | None => true
          end
      end
  | _ => false
  end.

(** The keys of a mapping are in ascending order. *)
Fixpoint keys_ascending (d : dict) : bool :=
  match d with
  | [] => true
  | (k, _) :: d' =>
      match d' with
      | [] => true
      | (k', _) :: _ => String.leb k k' && keys_ascending d'
      end
  end.

(** Every mapping of the document has its keys in ascending order. *)
Fixpoint keys_ascending_deep (v : value) : bool :=
  match v with
  | VList l => forallb keys_ascending_deep l
  | VDict d =>
      keys_ascending d
      && forallb (fun kv => match kv with
                            | (_, x) => keys_ascending_deep x
                            end) d
  | _ => true
  end.

(** A new run of the script in a new session, on the same files. *)
Definition new_session (w : world) : world :=
  mkWorld None false [] (disk w) (readable w) (writable w) (cwd w) [].

(** The session and the file, which is what the buttons are for. *)
Definition outcome_of {A : Type} (run : control A * world)
    : option value * option string :=
  (session_settings (snd run), disk (snd run)).


(** ** The primitives on small inputs *)

Example split_model_provider :
  split "." "model.provider" = ["model"; "provider"].
Proof. reflexivity. Qed.

Example split_keeps_empty_components :
  split "." "a." = ["a"; ""] /\ split "." "" = [""].
Proof. split; reflexivity. Qed.

Example contains_is_substring_on_str :
  py_contains "ell" (VStr "hello") = Ret true
  /\ py_contains "user" (VStr "hello") = Ret false
  /\ py_contains "" (VStr "hello") = Ret true.
Proof. repeat split; reflexivity. Qed.

Example setitem_on_str_raises :
  setitem (VStr "hello") "user" (VStr "x")
  = (Raise (TypeError "'str' object does not support item assignment"),
     VStr "hello").
Proof. reflexivity. Qed.

Example dict_set_keeps_position :
  dict_set "b" (VInt 9) [ ("a", VInt 1); ("b", VInt 2); ("c", VInt 3) ]
  = [ ("a", VInt 1); ("b", VInt 9); ("c", VInt 3) ]
  /\ dict_set "d" (VInt 9) [ ("a", VInt 1) ] = [ ("a", VInt 1); ("d", VInt 9) ].
Proof. split; reflexivity. Qed.

Example option_lines_drops_blank_lines :
  option_lines ("a" ++ String newline (" " ++ String newline "b")) = ["a"; "b"].
Proof. reflexivity. Qed.

Example navigate_creates_missing_mappings :
  navigate_and_assign (VDict [ ("x", VInt 1) ]) ["a"; "b"] "c" (VInt 2)
  = (Ret tt,
     VDict [ ("x", VInt 1);
             ("a", VDict [ ("b", VDict [ ("c", VInt 2) ]) ]) ]).
Proof. reflexivity. Qed.

Example sorted_keys_of_default :
  match sort_keys_deep default_settings with
  | VDict d => dict_keys d
  | _ => []
  end
  = ["examples"; "input_csv"; "logfire"; "model"; "output_csv"; "prompt";
     "search"; "structure"].
Proof. reflexivity. Qed.

Example flow_yaml_reads_back_default :
  FlowYaml.safe_load (FlowYaml.emit default_settings) = Ret default_settings.
Proof. vm_compute. reflexivity. Qed.


(** ** Dictionaries: reading after writing *)

Lemma dict_get_set_same (k : string) (v : value) (d : dict) :
  dict_get k (dict_set k v d) = Some v.
Proof.
  induction d as [|[k' v'] d IH]; simpl.
  - now rewrite String.eqb_refl.
  - destruct (String.eqb k k') eqn:E; simpl; rewrite E; auto.
Qed.

Lemma dict_get_set_other (k k' : string) (v : value) (d : dict) :
  k <> k' -> dict_get k' (dict_set k v d) = dict_get k' d.
Proof.
  intros Hne. induction d as [|[k0 v0] d IH]; simpl.
  - destruct (String.eqb k' k) eqn:E; auto.
    apply String.eqb_eq in E. congruence.
  - destruct (String.eqb k k0) eqn:E; simpl.
    + apply String.eqb_eq in E. subst k0.
      destruct (String.eqb k' k) eqn:E'; auto.
      apply String.eqb_eq in E'. congruence.
    + now rewrite IH.
Qed.

Lemma dict_set_get_id (k : string) (x : value) (d : dict) :
  dict_get k d = Some x -> dict_set k x d = d.
Proof.
  induction d as [|[k' v'] d IH]; simpl; [discriminate|].
  destruct (String.eqb k k') eqn:E; intros H.
  - now inversion H.
  - now rewrite IH.
Qed.



(** ** Path navigation *)

Lemma setitem_not_dict (c : value) (k : string) (v : value) :
  is_dict c = false ->
  exists msg, setitem c k v = (Raise (TypeError msg), c).
Proof.
  destruct c; simpl; try discriminate; eauto.
Qed.

(** Navigation that starts on an object that is not a dictionary raises
    [TypeError] and changes nothing. *)
Lemma navigate_not_dict (c : value) (path : list string) (last_key : string)
    (v : value) :
  is_dict c = false ->
  exists msg, navigate_and_assign c path last_key v = (Raise (TypeError msg), c).
Proof.
  intros Hc. destruct path as [|k path]; simpl.
  - now apply setitem_not_dict.
  - destruct c; simpl in *; try discriminate; eauto.
    + destruct (index 0 k s); unfold with_item; simpl; eauto.
    + destruct (existsb _ items); unfold with_item; simpl; eauto.
Qed.

(** Navigation into a mapping that was just created does not fail. *)
Lemma navigate_fresh (path : list string) (last_key : string) (v : value) :
  exists c', navigate_and_assign (VDict []) path last_key v = (Ret tt, c').
Proof.
  induction path as [|k path [x Hx]]; simpl; eauto.
  unfold with_item. simpl. rewrite String.eqb_refl, Hx. eauto.
Qed.

(** An exception during navigation leaves the object as it was: a mapping
    is created only where every later step succeeds. *)
Lemma navigate_raise_unchanged (path : list string) :
  forall (c : value) (last_key : string) (v : value) (e : exn) (c' : value),
    navigate_and_assign c path last_key v = (Raise e, c') -> c' = c.
Proof.
  induction path as [|k path IH]; intros c last_key v e c' H.
  - destruct c; simpl in H; inversion H; auto.
  - destruct (is_dict c) eqn:Hc.
    + destruct c as [| | | | | |d]; try discriminate. simpl in H.
      unfold dict_mem in H. destruct (dict_get k d) as [x|] eqn:Hk; simpl in H.
      * unfold with_item in H. simpl in H. rewrite Hk in H.
        destruct (navigate_and_assign x path last_key v) as [r x'] eqn:Hn.
        inversion H; subst. apply IH in Hn. subst x'.
        now rewrite dict_set_get_id.
      * unfold with_item in H. simpl in H. rewrite dict_get_set_same in H.
        destruct (navigate_fresh path last_key v) as [x' Hn].
        rewrite Hn in H. discriminate.
    + destruct (navigate_not_dict c (k :: path) last_key v Hc) as [m Hm].
      rewrite Hm in H. now inversion H.
Qed.





(** When navigation returns normally the assigned path reads the new
    value. *)
Lemma navigate_assigned (path : list string) :
  forall (c : value) (last_key : string) (v : value) (c' : value),
    navigate_and_assign c path last_key v = (Ret tt, c') ->
    lookup_path (path ++ [last_key])%list c' = Some v.
Proof.
  induction path as [|k path IH]; intros c last_key v c' H.
  - destruct c; simpl in H; inversion H; subst. simpl.
    now rewrite dict_get_set_same.
  - destruct (is_dict c) eqn:Hc.
    2:{ destruct (navigate_not_dict c (k :: path) last_key v Hc) as [m Hm].
        rewrite Hm in H. discriminate. }
    destruct c as [| | | | | |d]; try discriminate.
    simpl in H. unfold dict_mem in H.
    destruct (dict_get k d) as [x|] eqn:Hk; simpl in H;
      unfold with_item in H; simpl in H.
    + rewrite Hk in H.
      destruct (navigate_and_assign x path last_key v) as [r x'] eqn:Hn.
      inversion H; subst. simpl. rewrite dict_get_set_same. eapply IH; eauto.
    + rewrite dict_get_set_same in H.
      destruct (navigate_and_assign (VDict []) path last_key v) as [r x'] eqn:Hn.
      inversion H; subst. simpl. rewrite dict_get_set_same. eapply IH; eauto.
Qed.

(** ** What the script's functions do to the world *)

Section Properties.

Context {Y : YamlLib}.
Variable render_fields : widgets -> value -> M unit.
Variable examples_body : widgets -> value -> M unit.

Ltac unfold_script :=
  unfold save_settings, load_settings, try_except, bind, when, lift, raise, ret,
    os_path_abspath, os_path_exists, read_file, write_file,
    st_write, st_warning, st_error, st_success, st_info,
    st_experimental_rerun, read_session, read_global, assign_session,
    assign_loaded in *.

Lemma set_session_same (w : world) (doc : value) :
  session_settings w = Some doc -> set_session (Some doc) w = w.
Proof. destruct w; simpl; intros ->; reflexivity. Qed.

Lemma bind_normal {A B : Type} (m : M A) (k : A -> M B) (w w' : world) (a : A) :
  m w = (Normal a, w') -> bind m k w = k a w'.
Proof. unfold bind. now intros ->. Qed.

Lemma on_session_eval {A : Type} (f : value -> result A * value)
    (w : world) (doc doc' : value) (r : result A) :
  session_settings w = Some doc -> f doc = (r, doc') ->
  on_session f w = (control_of r, set_session (Some doc') w).
Proof.
  intros Hs Hf. unfold on_session. rewrite Hs, Hf. now destruct r.
Qed.


Lemma on_session_ret {A : Type} (f : value -> result A * value)
    (w : world) (doc doc' : value) (a : A) :
  session_settings w = Some doc -> f doc = (Ret a, doc') ->
  on_session f w = (Normal a, set_session (Some doc') w).
Proof. intros Hs Hf. now rewrite (on_session_eval f w doc doc' (Ret a)). Qed.


Lemma read_global_eval (name : string) (w : world) (obj : value) :
  dict_get name (globals w) = Some obj -> read_global name w = (Normal obj, w).
Proof. unfold read_global. now intros ->. Qed.

Lemma read_session_eval (w : world) (doc : value) :
  session_settings w = Some doc -> read_session w = (Normal doc, w).
Proof. unfold read_session. now intros ->. Qed.



(** [save_settings] in full: its answer, the file afterwards, and
    everything else but the messages untouched. *)
Lemma save_settings_effect (settings : value) (w : world) :
  exists w',
    save_settings settings w = (Normal (save_ok settings w), w') /\
    disk w' = disk_after_save settings w /\
    session_settings w' = session_settings w /\
    settings_loaded w' = settings_loaded w /\
    globals w' = globals w /\
    readable w' = readable w /\
    writable w' = writable w.
Proof.
  unfold_script. unfold save_ok, disk_after_save.
  destruct settings; simpl;
    try (eexists; split; [reflexivity|]; simpl; now auto 10);
    (destruct (writable w) eqn:Hw; simpl;
     [destruct (readable w) eqn:Hr; simpl;
      [match goal with
       | |- context [String.eqb ?a ""] => destruct (String.eqb a ""); simpl
       end|]|]);
    eexists; (split; [reflexivity|]); simpl; auto 10.
Qed.

(** [load_settings] always returns, and what it returns is truthy: a
    document that reads as false is replaced by the default. *)
Lemma load_settings_truthy (w : world) :
  exists doc w',
    load_settings w = (Normal doc, w') /\ truthy doc = true /\
    session_settings w' = session_settings w /\ globals w' = globals w.
Proof.
  unfold_script.
  destruct (disk w) as [text|] eqn:Hd; simpl; rewrite ?Hd; simpl.
  - destruct (readable w); simpl.
    + destruct (yaml_safe_load text) as [doc|e]; simpl.
      * destruct (truthy doc) eqn:Ht; simpl; eauto 10.
      * eauto 10.
    + eauto 10.
  - destruct (writable w); simpl; eauto 10.
Qed.


(** ** The claims *)


(** C10.  When the first component of a dotted key of two or more
    components names a value of the session's document that is not a
    mapping, [update_and_save] raises [TypeError]: the exception leaves the
    function (no [False] is returned), nothing is saved and the world is as
    before. *)
Theorem update_and_save_non_mapping_raises (w : world) (key : string)
    (v : value) (d : dict) (k0 k1 : string) (rest : list string) (x : value) :
  session_settings w = Some (VDict d) ->
  split "." key = k0 :: k1 :: rest ->
  dict_get k0 d = Some x ->
  is_dict x = false ->
  exists msg, update_and_save key v w = (Exception (TypeError msg), w).
Proof.
  intros Hs Hkey Hk0 Hx.
  unfold update_and_save, bind, on_session. rewrite Hs, Hkey.
  change (removelast (k0 :: k1 :: rest)) with (k0 :: removelast (k1 :: rest)).
  remember (removelast (k1 :: rest)) as path eqn:Hpath.
  remember (last (k0 :: k1 :: rest) "") as last_key eqn:Hlast.
  simpl navigate_and_assign. unfold dict_mem, with_item. rewrite Hk0. simpl.
  rewrite Hk0.
  destruct (navigate_not_dict x path last_key v Hx) as [msg Hmsg].
  rewrite Hmsg. rewrite (dict_set_get_id _ _ _ Hk0).
  rewrite (set_session_same _ _ Hs). eauto.
Qed.

(** C6.  When [augmenta.yaml] does not exist (and can be created),
    [load_settings] writes the default document to it and returns the default
    document; a second [load_settings] reads the file back and returns the
    same document, the world unchanged (the YAML library reading back the
    default document it wrote).  When the file exists and parses to a
    document that reads as false (empty or null), [load_settings] returns
    the default document and changes nothing, the file included. *)
Theorem load_settings_default_substitution
    (w w0 : world) (text : string) (empty_doc : value) :
  disk w = None -> writable w = true -> readable w = true ->
  yaml_safe_load (yaml_dump false default_settings) = Ret default_settings ->
  disk w0 = Some text -> readable w0 = true ->
  yaml_safe_load text = Ret empty_doc -> truthy empty_doc = false ->
  (exists w1,
      load_settings w = (Normal default_settings, w1) /\
      w1 = set_disk (Some (yaml_dump false default_settings)) w /\
      load_settings w1 = (Normal default_settings, w1))
  /\ load_settings w0 = (Normal default_settings, w0).
Proof.
  intros Hd Hw Hr Hrt Hd0 Hr0 Hparse Hfalse. split.
  - eexists. split; [|split; [reflexivity|]].
    + unfold_script. rewrite Hd. simpl. rewrite Hw. reflexivity.
    + unfold_script. simpl. rewrite Hr. simpl. rewrite Hrt. reflexivity.
  - unfold_script. rewrite Hd0. simpl. rewrite Hd0, Hr0. simpl.
    rewrite Hparse. simpl. rewrite Hfalse. reflexivity.
Qed.

(** C8.  A session document whose [prompt] is a bare string [s] is shown as
    the pair of an empty system prompt and the user prompt [s]; and saving
    the prompt section with these two texts as they are stores
    [{system: "", user: s}] in place of the string. *)
Theorem legacy_prompt_exposed (w : world) (d : dict) (s : string) (logfire : bool) :
  session_settings w = Some (VDict d) ->
  dict_get "prompt" d = Some (VStr s) ->
  prompt_defaults w = (Normal (VStr "", VStr s), w)
  /\ session_at (snd (save_prompt_settings "" s logfire w)) ["prompt"]
     = Some (VDict [ ("system", VStr ""); ("user", VStr s) ]).
Proof.
  intros Hs Hp. split.
  - unfold prompt_defaults, bind, read_session, lift, py_get, ret.
    rewrite Hs. simpl. rewrite Hp. reflexivity.
  - set (d1 := dict_set "prompt" (VDict []) d).
    assert (reset_legacy_prompt (VDict d) = (Ret tt, VDict d1)) as H1.
    { unfold reset_legacy_prompt. simpl. unfold dict_mem. rewrite Hp. simpl.
      reflexivity. }
    unfold save_prompt_settings.
    erewrite bind_normal by (eapply on_session_ret; eauto).
    erewrite bind_normal
      by (eapply on_session_ret;
          [reflexivity
          |unfold with_item, d1; simpl; rewrite dict_get_set_same; reflexivity]).
    erewrite bind_normal
      by (eapply on_session_ret;
          [reflexivity
          |unfold with_item; simpl; rewrite dict_get_set_same; reflexivity]).
    erewrite bind_normal by (eapply on_session_ret; reflexivity).
    erewrite bind_normal by (apply read_session_eval; reflexivity).
    match goal with
    | |- context [bind (save_settings ?doc) _ ?w1] =>
        destruct (save_settings_effect doc w1) as (w' & Hsave & _ & Hsess & _)
    end.
    erewrite bind_normal by exact Hsave.
    unfold session_at, ret. simpl. rewrite Hsess. simpl.
    rewrite dict_get_set_other by discriminate.
    now rewrite dict_get_set_same.
Qed.

Lemma dict_get_in_keys (k : string) (x : value) (d : dict) :
  dict_get k d = Some x -> In k (dict_keys d).
Proof.
  induction d as [|[k' v'] d IH]; simpl; [discriminate|].
  destruct (String.eqb k k') eqn:E; intros H.
  - apply String.eqb_eq in E. auto.
  - auto.
Qed.

Lemma saved_settings_not_bound :
  ~ In "saved_settings" (map snd module_bindings).
Proof.
  simpl. intros H.
  repeat (destruct H as [H|H]; [discriminate|]). exact H.
Qed.

Lemma namespace_lacks_saved_settings (w : world) :
  namespace_of_script w -> dict_get "saved_settings" (globals w) = None.
Proof.
  intros Hns. destruct (dict_get "saved_settings" (globals w)) eqn:E; auto.
  apply dict_get_in_keys, Hns in E. now apply saved_settings_not_bound in E.
Qed.

(** C9.  No statement of the script binds [saved_settings].  In a namespace
    of the script, the Output Structure, Examples and Advanced Configuration
    sections each stop with [NameError] at their first statement, and so do
    the bodies of "Add Field" and "Save Structure Changes" and the export:
    the world is left exactly as it was, nothing of the document read or
    written. *)
Theorem saved_settings_name_error (w : world) (u : widgets)
    (name : string) (kind : field_kind) (desc : string) (options : list string) :
  namespace_of_script w ->
  ~ In "saved_settings" (map snd module_bindings)
  /\ output_structure render_fields u w
     = (Exception (NameError "saved_settings"), w)
  /\ examples_section examples_body u w
     = (Exception (NameError "saved_settings"), w)
  /\ advanced_configuration u w = (Exception (NameError "saved_settings"), w)
  /\ add_field name kind desc options w
     = (Exception (NameError "saved_settings"), w)
  /\ save_structure_changes w = (Exception (NameError "saved_settings"), w)
  /\ export w = (Exception (NameError "saved_settings"), w).
Proof.
  intros Hns. apply namespace_lacks_saved_settings in Hns.
  split; [exact saved_settings_not_bound|].
  unfold output_structure, examples_section, advanced_configuration, add_field,
    save_structure_changes, export, bind, read_global, on_global.
  rewrite Hns. repeat split; reflexivity.
Qed.





(** "Import Configuration" parses the upload and hands the parsed document
    to [save_settings]; it never assigns it to the session's document (nor
    to any module-level name), so the document in memory is the one from
    before the import, whether the upload parses or not.  When the upload
    parses the file is written as [save_settings] writes it; when it does
    not, the only effect is the error message that carries the parser's
    message. *)
Lemma import_configuration_effect (w : world) (raw : string) :
  let w' := snd (import_configuration raw w) in
  session_settings w' = session_settings w /\
  globals w' = globals w /\
  match yaml_safe_load raw with
  | Ret doc =>
      fst (import_configuration raw w)
      = (if save_ok doc w then RerunScript else Normal tt) /\
      disk w' = disk_after_save doc w
  | Raise e =>
      import_configuration raw w
      = (Normal tt, show (Error ("Error importing configuration: " ++ exn_str e)) w)
  end.
Proof.
  unfold import_configuration, try_except.
  destruct (yaml_safe_load raw) as [doc|e].
  - destruct (save_settings_effect doc w)
      as (w1 & Hsave & Hdisk & Hsess & _ & Hglob & _).
    erewrite bind_normal by reflexivity.
    erewrite bind_normal by exact Hsave.
    destruct (save_ok doc w); cbn; auto.
  - cbn. auto.
Qed.

(** The export is the text of the document with the keys of every mapping
    sorted, where [save_settings] writes the keys in the document's order. *)
Lemma export_sorts_keys (w : world) (doc : value) :
  dict_get "saved_settings" (globals w) = Some doc ->
  export w = (Normal (yaml_emit (sort_keys_deep doc)), w).
Proof.
  intros Hg. unfold export. erewrite bind_normal by (apply read_global_eval, Hg).
  reflexivity.
Qed.

Lemma save_writes_in_document_order (w : world) (doc : value) :
  doc <> VNone -> writable w = true ->
  disk (snd (save_settings doc w)) = Some (yaml_emit doc).
Proof.
  intros Hne Hw.
  destruct (save_settings_effect doc w) as (w' & Hsave & Hdisk & _).
  rewrite Hsave. simpl. rewrite Hdisk. unfold disk_after_save.
  rewrite Hw. destruct doc; auto. congruence.
Qed.

(** *** Sorting the keys keeps the document *)

Lemma value_ind_nested (P : value -> Prop) :
  P VNone ->
  (forall b, P (VBool b)) ->
  (forall z, P (VInt z)) ->
  (forall bits, P (VFloat bits)) ->
  (forall s, P (VStr s)) ->
  (forall l, Forall P l -> P (VList l)) ->
  (forall d, Forall (fun kv => P (snd kv)) d -> P (VDict d)) ->
  forall v, P v.
Proof.
  intros Hnone Hbool Hint Hfloat Hstr Hlist Hdict.
  fix IH 1. intros v. destruct v as [ | b | z | bits | s | l | d].
  - apply Hnone.
  - apply Hbool.
  - apply Hint.
  - apply Hfloat.
  - apply Hstr.
  - apply Hlist. induction l as [|x l IHl]; constructor; [apply IH|exact IHl].
  - apply Hdict.
    induction d as [|[k x] d IHd]; constructor; [apply IH|exact IHd].
Qed.





End Properties.

(** ** The claims on concrete runs *)


(** [update_and_save("prompt.user", ...)] on a document whose prompt is the
    string ["hello"]. *)
Lemma update_and_save_non_mapping_raises_witness :
  let w := world_with_session (VDict [ ("prompt", VStr "hello") ]) in
  exists msg,
    @update_and_save flow_yaml "prompt.user" (VStr "x") w
    = (Exception (TypeError msg), w).
Proof.
  intros w.
  apply (@update_and_save_non_mapping_raises flow_yaml w "prompt.user"
           (VStr "x") [ ("prompt", VStr "hello") ] "prompt" "user" []
           (VStr "hello")); reflexivity.
Defined.

(** [load_settings] without a file, twice, and on a file that holds [{}]. *)
Lemma load_settings_default_substitution_witness :
  (exists w1,
      @load_settings flow_yaml fresh_world = (Normal default_settings, w1) /\
      w1 = set_disk (Some (@yaml_dump flow_yaml false default_settings)) fresh_world /\
      @load_settings flow_yaml w1 = (Normal default_settings, w1))
  /\ @load_settings flow_yaml world_with_empty_file
     = (Normal default_settings, world_with_empty_file).
Proof.
  apply (@load_settings_default_substitution flow_yaml fresh_world
           world_with_empty_file "{}" (VDict []));
    vm_compute; reflexivity.
Defined.

(** The prompt ["hello"]. *)
Lemma legacy_prompt_exposed_witness :
  let w := world_with_session (VDict [ ("prompt", VStr "hello") ]) in
  @prompt_defaults w = (Normal (VStr "", VStr "hello"), w)
  /\ session_at (snd (@save_prompt_settings flow_yaml "" "hello" false w)) ["prompt"]
     = Some (VDict [ ("system", VStr ""); ("user", VStr "hello") ]).
Proof.
  intros w.
  apply (@legacy_prompt_exposed flow_yaml w [ ("prompt", VStr "hello") ]
           "hello" false); reflexivity.
Defined.

Lemma world_of_script_namespace : namespace_of_script world_of_script.
Proof.
  intros name H. simpl in H.
  destruct H as [<-|[<-|[<-|[]]]]; vm_compute; tauto.
Defined.

(** The three sections in a run of the script as written. *)
Lemma saved_settings_name_error_witness :
  @output_structure flow_yaml no_rendering idle_widgets world_of_script
  = (Exception (NameError "saved_settings"), world_of_script)
  /\ examples_section no_rendering idle_widgets world_of_script
     = (Exception (NameError "saved_settings"), world_of_script)
  /\ @advanced_configuration flow_yaml idle_widgets world_of_script
     = (Exception (NameError "saved_settings"), world_of_script).
Proof.
  destruct (@saved_settings_name_error flow_yaml no_rendering no_rendering
              world_of_script idle_widgets "x" KStr "" []
              world_of_script_namespace)
    as (_ & H1 & H2 & H3 & _).
  auto.
Defined.




(** C2, on a run.  The session holds the default document and the user
    uploads the text of the one-key document [{input_csv: other.csv}].  The
    upload parses, the file is written with the uploaded document and the
    script asks for a rerun; the session's document is still the default
    document, not the uploaded one, and the rerun does not load the file
    ([settings_loaded] is set).  An upload that does not parse changes
    nothing and shows the parser's message. *)
Theorem import_leaves_session_document :
  let uploaded := VDict [ ("input_csv", VStr "other.csv") ] in
  let w := world_with_session default_settings in
  let run := @import_configuration flow_yaml (FlowYaml.emit uploaded) w in
  FlowYaml.safe_load (FlowYaml.emit uploaded) = Ret uploaded
  /\ fst run = RerunScript
  /\ disk (snd run) = Some (FlowYaml.emit uploaded)
  /\ session_settings (snd run) = Some default_settings
  /\ session_settings (snd run) <> Some uploaded
  /\ globals (snd run) = []
  /\ @startup flow_yaml (snd run) = (Normal tt, snd run)
  /\ @import_configuration flow_yaml "{" w
     = (Normal tt,
        show (Error "Error importing configuration: could not read a flow-style document") w).
Proof.
  cbv zeta.
  pose proof (@import_configuration_effect flow_yaml
                (world_with_session default_settings)
                (FlowYaml.emit (VDict [ ("input_csv", VStr "other.csv") ])))
    as (Hsession & Hglobals & Hparsed).
  pose proof (@import_configuration_effect flow_yaml
                (world_with_session default_settings) "{")
    as (_ & _ & Hfailed).
  change (@yaml_safe_load flow_yaml) with FlowYaml.safe_load in *.
  assert (FlowYaml.safe_load
            (FlowYaml.emit (VDict [ ("input_csv", VStr "other.csv") ]))
          = Ret (VDict [ ("input_csv", VStr "other.csv") ])) as Hload
    by (vm_compute; reflexivity).
  rewrite Hload in Hparsed. destruct Hparsed as (Hrun & Hdisk).
  split; [exact Hload|]. split; [rewrite Hrun; reflexivity|].
  split; [rewrite Hdisk; reflexivity|].
  split; [rewrite Hsession; reflexivity|].
  split; [rewrite Hsession; discriminate|].
  split; [rewrite Hglobals; reflexivity|].
  split; [vm_compute; reflexivity|].
  exact Hfailed.
Qed.

(** C3, on a run.  For the default document the text of the export and the
    text [save_settings] writes to the file differ: the file has the keys in
    the document's order ([input_csv] first), the export has them sorted
    ([examples] first), at every level. *)
Theorem export_differs_from_saved_file :
  let w := world_with_saved default_settings in
  exists exported saved,
    @export flow_yaml w = (Normal exported, w)
    /\ disk (snd (@save_settings flow_yaml default_settings w)) = Some saved
    /\ exported = FlowYaml.emit (sort_keys_deep default_settings)
    /\ saved = FlowYaml.emit default_settings
    /\ exported <> saved
    /\ dict_keys default_items
       = ["input_csv"; "output_csv"; "model"; "search"; "prompt"; "structure";
          "examples"; "logfire"]
    /\ match sort_keys_deep default_settings with
       | VDict sorted =>
           dict_keys sorted
           = ["examples"; "input_csv"; "logfire"; "model"; "output_csv";
              "prompt"; "search"; "structure"]
       | _ => False
       end.
Proof.
  cbv zeta. eexists. eexists.
  split; [apply (@export_sorts_keys flow_yaml); reflexivity|].
  split; [apply (@save_writes_in_document_order flow_yaml);
          [discriminate|reflexivity]|].
  split; [reflexivity|]. split; [reflexivity|].
  split; [vm_compute; discriminate|].
  split; vm_compute; reflexivity.
Qed.

(** ** Where the code departs from the claims *)




(** ** The rest of the script *)

Section MoreProperties.

Context {Y : YamlLib}.

Ltac unfold_io :=
  unfold save_settings, load_settings, try_except, bind, when, lift, raise, ret,
    os_path_abspath, os_path_exists, read_file, write_file,
    st_write, st_warning, st_error, st_success, st_info,
    st_experimental_rerun, read_session, read_global, assign_session,
    assign_loaded in *.

Lemma bind_exception {A B : Type} (m : M A) (k : A -> M B) (w w' : world)
    (e : exn) :
  m w = (Exception e, w') -> bind m k w = (Exception e, w').
Proof. unfold bind. now intros ->. Qed.

Lemma nonempty_text (t : string) : negb (String.eqb t "") = true <-> t <> "".
Proof.
  destruct (String.eqb t "") eqn:E; simpl.
  - apply String.eqb_eq in E. split; [discriminate|congruence].
  - apply String.eqb_neq in E. split; auto.
Qed.

(** X1.  [save_settings] never raises and never asks for a rerun.  It
    answers [True] exactly when the document is not [None], the file can be
    opened for writing and for reading, and the text written is not empty;
    and when it answers [True] the file holds the text of the document.
    It leaves the session's document and the namespace alone. *)
Theorem save_settings_answer (settings : value) (w : world) :
  exists b w',
    save_settings settings w = (Normal b, w') /\
    (b = true <->
     settings <> VNone /\ writable w = true /\ readable w = true /\
     yaml_dump false settings <> "") /\
    (b = true -> disk w' = Some (yaml_dump false settings)) /\
    session_settings w' = session_settings w /\
    settings_loaded w' = settings_loaded w /\
    globals w' = globals w.
Proof.
  destruct (save_settings_effect settings w)
    as (w' & Hrun & Hdisk & Hsess & Hloaded & Hglob & _).
  exists (save_ok settings w), w'. split; [exact Hrun|].
  assert (save_ok settings w = true <->
          settings <> VNone /\ writable w = true /\ readable w = true /\
          yaml_dump false settings <> "") as Hiff.
  { unfold save_ok. destruct settings;
      try (rewrite !andb_true_iff, nonempty_text;
           intuition (auto; discriminate)).
    split; [discriminate|]. intros [H _]. congruence. }
  split; [exact Hiff|]. split; [|auto].
  intros Hb. apply Hiff in Hb. destruct Hb as (Hne & Hw & _).
  rewrite Hdisk. unfold disk_after_save. rewrite Hw.
  destruct settings; auto. congruence.
Qed.


(** X3.  An answer [False] does not mean that nothing was written: when
    the file can be opened for writing but not read back, or the text of
    the document is empty, [save_settings] answers [False] and the file
    holds the new text all the same. *)
Theorem save_settings_false_after_write (settings : value) (w : world) :
  settings <> VNone -> writable w = true ->
  readable w = false \/ yaml_dump false settings = "" ->
  exists w',
    save_settings settings w = (Normal false, w') /\
    disk w' = Some (yaml_dump false settings).
Proof.
  intros Hne Hw Hcase.
  destruct (save_settings_effect settings w) as (w' & Hrun & Hdisk & _).
  exists w'. split.
  - rewrite Hrun. f_equal. f_equal. unfold save_ok.
    destruct settings; try congruence;
      (destruct Hcase as [Hr|He];
       [rewrite Hr; now rewrite andb_false_r
       |rewrite He; simpl; now rewrite andb_false_r]).
  - rewrite Hdisk. unfold disk_after_save. rewrite Hw.
    destruct settings; auto; congruence.
Qed.

(** X4.  [load_settings] never raises, and never writes to a file that
    exists: the file and the session are as they were, and the answer is
    either the document parsed from the file, when it reads as true (the
    world is then untouched), or the default document. *)
Theorem load_settings_keeps_existing_file (w : world) (text : string) :
  disk w = Some text ->
  exists doc w',
    load_settings w = (Normal doc, w') /\
    disk w' = Some text /\
    session_settings w' = session_settings w /\
    settings_loaded w' = settings_loaded w /\
    (doc = default_settings
     \/ yaml_safe_load text = Ret doc /\ truthy doc = true /\ w' = w).
Proof.
  intros Hd. unfold_io. rewrite Hd. simpl. rewrite Hd.
  destruct (readable w); simpl.
  - destruct (yaml_safe_load text) as [doc|e]; simpl.
    + destruct (truthy doc) eqn:Ht; simpl; eauto 10.
    + eauto 10.
  - eauto 10.
Qed.

(** X5.  When the file exists but cannot be read, or does not parse,
    [load_settings] answers the default document and shows one warning that
    carries the message of the exception; nothing else changes. *)
Theorem load_settings_failure_warns (w : world) (text : string) (e : exn) :
  disk w = Some text ->
  readable w = false
  /\ e = OSError ("[Errno 13] Permission denied: '" ++ yaml_path ++ "'")
  \/ readable w = true /\ yaml_safe_load text = Raise e ->
  load_settings w
  = (Normal default_settings,
     show (Warning ("Error loading settings: " ++ exn_str e)) w).
Proof.
  intros Hd [[Hr ->]|[Hr Hparse]]; unfold_io; rewrite Hd; simpl;
    rewrite Hd, Hr; simpl.
  - reflexivity.
  - rewrite Hparse. reflexivity.
Qed.

Lemma load_parsed (w : world) (text : string) (doc : value) :
  disk w = Some text -> readable w = true ->
  yaml_safe_load text = Ret doc -> truthy doc = true ->
  load_settings w = (Normal doc, w).
Proof.
  intros Hd Hr Hparse Ht.
  unfold_io. rewrite Hd. simpl. rewrite Hd, Hr. simpl.
  rewrite Hparse. simpl. now rewrite Ht.
Qed.

(** X6.  A parsed document that reads as true is returned as it is, the
    world untouched: no key is filled in from the defaults, and nothing
    requires the document to be a mapping. *)
Theorem load_settings_returns_parsed (w : world) (text : string) (doc : value) :
  disk w = Some text -> readable w = true ->
  yaml_safe_load text = Ret doc -> truthy doc = true ->
  load_settings w = (Normal doc, w).
Proof.
  intros Hd Hr Hparse Ht.
  unfold load_settings, try_except, bind, os_path_exists, read_file, lift, ret.
  rewrite Hd. simpl. rewrite Hd, Hr. simpl.
  rewrite Hparse. simpl. now rewrite Ht.
Qed.

(** X7.  Without a file, [load_settings] answers the default document
    whether or not it can create the file: when it can, the file holds the
    text of the default document and nothing is shown; when it cannot, no
    file appears and one warning is shown. *)
Theorem load_settings_absent (w : world) :
  disk w = None ->
  exists w',
    load_settings w = (Normal default_settings, w') /\
    disk w'
    = (if writable w then Some (yaml_dump false default_settings) else None) /\
    shown w'
    = (if writable w then shown w
       else shown w
            ++ [ Warning ("Error creating default settings file: "
                          ++ "[Errno 13] Permission denied: 'augmenta.yaml'") ])%list.
Proof.
  intros Hd. unfold_io. rewrite Hd. simpl.
  destruct (writable w); simpl; eexists; (split; [reflexivity|]); simpl; auto.
Qed.

(** X8.  The start of the script (lines 94-96) never fails; afterwards the
    session is marked as loaded, and a session that is newly loaded holds a
    document that reads as true.  Running it again changes nothing: a
    loaded session is not read from the file again, whatever the file has
    become. *)
Theorem startup_loads_once (w : world) :
  exists w1,
    startup w = (Normal tt, w1) /\
    settings_loaded w1 = true /\
    (settings_loaded w = false ->
     exists doc, session_settings w1 = Some doc /\ truthy doc = true) /\
    (forall file, startup (set_disk file w1) = (Normal tt, set_disk file w1)).
Proof.
  unfold startup. destruct (settings_loaded w) eqn:Hl.
  - exists w. repeat split; auto; try discriminate.
    intros file. simpl. now rewrite Hl.
  - destruct (load_settings_truthy w) as (doc & w' & Hload & Ht & _).
    erewrite bind_normal by exact Hload.
    unfold bind, assign_session, assign_loaded. simpl.
    eexists. split; [reflexivity|]. simpl.
    repeat split; eauto.
Qed.

(** *** [update_and_save] on any key *)

Lemma split_nonempty (sep : ascii) (s : string) : split sep s <> [].
Proof.
  destruct s as [|c s]; simpl; [discriminate|].
  destruct (Ascii.eqb c sep); [discriminate|].
  destruct (split sep s); discriminate.
Qed.

Lemma path_of_key (key : string) :
  (removelast (split "." key) ++ [last (split "." key) ""])%list
  = split "." key.
Proof. symmetry. apply app_removelast_last, split_nonempty. Qed.

Lemma navigate_raises_type_error (path : list string) :
  forall (c : value) (last_key : string) (v : value) (e : exn) (c' : value),
    navigate_and_assign c path last_key v = (Raise e, c') ->
    exists msg, e = TypeError msg.
Proof.
  induction path as [|k path IH]; intros c last_key v e c' H.
  - destruct c; simpl in H; inversion H; eauto.
  - destruct (is_dict c) eqn:Hc.
    + destruct c as [| | | | | |d]; try discriminate. simpl in H.
      unfold dict_mem, with_item in H.
      destruct (dict_get k d) as [x|] eqn:Hk; simpl in H.
      * rewrite Hk in H.
        destruct (navigate_and_assign x path last_key v) as [r x'] eqn:Hn.
        inversion H; subst. eapply IH; eauto.
      * rewrite dict_get_set_same in H.
        destruct (navigate_fresh path last_key v) as [x' Hn].
        rewrite Hn in H. discriminate.
    + destruct (navigate_not_dict c (k :: path) last_key v Hc) as [m Hm].
      rewrite Hm in H. inversion H. eauto.
Qed.

Lemma navigate_ret_dict (path : list string) (c : value) (last_key : string)
    (v : value) (c' : value) :
  navigate_and_assign c path last_key v = (Ret tt, c') -> is_dict c' = true.
Proof.
  intros H. destruct (is_dict c) eqn:Hc.
  - destruct c as [| | | | | |d]; try discriminate.
    destruct path as [|k path]; simpl in H.
    + now inversion H.
    + unfold dict_mem, with_item in H.
      destruct (dict_get k d) as [x|] eqn:Hk; simpl in H.
      * rewrite Hk in H. destruct (navigate_and_assign x path last_key v).
        now inversion H.
      * rewrite dict_get_set_same in H.
        destruct (navigate_and_assign (VDict []) path last_key v).
        now inversion H.
  - destruct (navigate_not_dict c path last_key v Hc) as [m Hm].
    rewrite Hm in H. discriminate.
Qed.

Lemma navigate_ret_iff_navigable (path : list string) :
  forall (c : value) (last_key : string) (v : value),
    fst (navigate_and_assign c path last_key v) = Ret tt
    <-> navigable path c = true.
Proof.
  induction path as [|k path IH]; intros c last_key v.
  - destruct c; simpl; split; auto; discriminate.
  - destruct (is_dict c) eqn:Hc.
    + destruct c as [| | | | | |d]; try discriminate. simpl.
      unfold dict_mem, with_item.
      destruct (dict_get k d) as [x|] eqn:Hk; simpl.
      * rewrite Hk. rewrite <- (IH x last_key v).
        now destruct (navigate_and_assign x path last_key v).
      * rewrite dict_get_set_same.
        destruct (navigate_fresh path last_key v) as [x' Hn].
        rewrite Hn. simpl. tauto.
    + destruct (navigate_not_dict c (k :: path) last_key v Hc) as [m Hm].
      rewrite Hm. destruct c; simpl in *; try discriminate; split; discriminate.
Qed.

Lemma update_and_save_run (key : string) (v : value) (w : world)
    (doc doc' : value) (r : result unit) :
  session_settings w = Some doc ->
  assign key v doc = (r, doc') ->
  update_and_save key v w
  = match r with
    | Ret _ => save_settings doc' (set_session (Some doc') w)
    | Raise e => (Exception e, set_session (Some doc') w)
    end.
Proof.
  intros Hs Ha. unfold update_and_save, bind, on_session. rewrite Hs.
  unfold assign in Ha. rewrite Ha. destruct r; reflexivity.
Qed.


(** X10.  When [update_and_save(key, v)] returns, the dotted key reads [v]
    in the session's document, the document saved is the session's
    document, and the answer is the answer of [save_settings] for it. *)
Theorem update_and_save_assigns (key : string) (v : value) (w w' : world)
    (b : bool) :
  update_and_save key v w = (Normal b, w') ->
  session_at w' (split "." key) = Some v
  /\ exists doc',
       session_settings w' = Some doc' /\
       is_dict doc' = true /\
       b = save_ok doc' w /\
       disk w' = disk_after_save doc' w.
Proof.
  intros Hrun.
  destruct (session_settings w) as [doc|] eqn:Hs.
  2:{ unfold update_and_save, bind, on_session in Hrun. rewrite Hs in Hrun.
      discriminate. }
  destruct (assign key v doc) as [r doc'] eqn:Ha.
  rewrite (update_and_save_run key v w doc doc' r Hs Ha) in Hrun.
  destruct r as [[]|e]; [|discriminate].
  destruct (save_settings_effect doc' (set_session (Some doc') w))
    as (w1 & Hsave & Hdisk & Hsess & _).
  rewrite Hsave in Hrun. inversion Hrun; subst.
  unfold assign in Ha. split.
  - unfold session_at. rewrite Hsess. simpl. rewrite <- path_of_key.
    eapply navigate_assigned; eauto.
  - exists doc'. rewrite Hsess. repeat split; auto.
    eapply navigate_ret_dict; eauto.
Qed.

(** X11.  [update_and_save] is all or nothing: when it raises, the world is
    exactly as it was (no mapping was created on the way, nothing was
    saved, nothing was shown).  It raises [AttributeError] in a session
    without a document and [TypeError] otherwise, and it never asks for a
    rerun. *)
Theorem update_and_save_all_or_nothing (key : string) (v : value) (w : world) :
  (forall e w',
      update_and_save key v w = (Exception e, w') ->
      w' = w /\
      (session_settings w = None /\ (exists msg, e = AttributeError msg)
       \/ exists msg, e = TypeError msg))
  /\ fst (update_and_save key v w) <> RerunScript.
Proof.
  destruct (session_settings w) as [doc|] eqn:Hs.
  - destruct (assign key v doc) as [r doc'] eqn:Ha.
    rewrite (update_and_save_run key v w doc doc' r Hs Ha).
    destruct r as [[]|e0].
    + destruct (save_settings_effect doc' (set_session (Some doc') w))
        as (w1 & Hsave & _).
      rewrite Hsave. split; [intros e w' H|]; discriminate.
    + split; [|discriminate]. intros e w' H. inversion H; subst.
      unfold assign in Ha. pose proof Ha as Hsame.
      apply navigate_raise_unchanged in Hsame. subst doc'.
      apply navigate_raises_type_error in Ha.
      split; [now apply set_session_same|auto].
  - unfold update_and_save, bind, on_session. rewrite Hs.
    split; [|discriminate]. intros e w' H. inversion H; subst. eauto 6.
Qed.

(** X12.  Which calls go through: with a document in the session,
    [update_and_save(key, v)] returns exactly when the session's document
    is a mapping and every value that the components before the last
    reach is a mapping; a missing component never stops it. *)
Theorem update_and_save_returns_iff (key : string) (v : value) (w : world)
    (doc : value) :
  session_settings w = Some doc ->
  (exists b w', update_and_save key v w = (Normal b, w'))
  <-> navigable (removelast (split "." key)) doc = true.
Proof.
  intros Hs. destruct (assign key v doc) as [r doc'] eqn:Ha.
  rewrite (update_and_save_run key v w doc doc' r Hs Ha).
  rewrite <- (navigate_ret_iff_navigable _ doc (last (split "." key) "") v).
  unfold assign in Ha. rewrite Ha. simpl.
  destruct r as [[]|e].
  - destruct (save_settings_effect doc' (set_session (Some doc') w))
      as (w1 & Hsave & _).
    rewrite Hsave. split; eauto.
  - split; [intros (b & w' & H)|]; discriminate.
Qed.

(** *** The section buttons and [update_and_save] *)

Lemma on_session_all_run {B : Type} (stmts : list (value -> result unit * value))
    (k : M B) :
  forall (w : world) (doc doc' : value) (r : result unit),
    session_settings w = Some doc ->
    then_all stmts doc = (r, doc') ->
    on_session_all stmts k w
    = match r with
      | Ret _ => k (set_session (Some doc') w)
      | Raise e => (Exception e, set_session (Some doc') w)
      end.
Proof.
  induction stmts as [|f stmts IH]; intros w doc doc' r Hs Hrun; simpl in *.
  - inversion Hrun; subst. now rewrite (set_session_same _ _ Hs).
  - unfold then_stmt in Hrun. destruct (f doc) as [r1 d1] eqn:Hf.
    destruct r1 as [[]|e].
    + erewrite bind_normal by (eapply on_session_ret; eauto).
      erewrite IH by (first [reflexivity | exact Hrun]).
      destruct r; reflexivity.
    + inversion Hrun; subst.
      erewrite bind_exception; [reflexivity|].
      now rewrite (on_session_eval f w doc doc' (Raise e)).
Qed.

Lemma on_session_all_none {B : Type} (f : value -> result unit * value)
    (stmts : list (value -> result unit * value)) (k : M B) (w : world) :
  session_settings w = None ->
  exists e, on_session_all (f :: stmts) k w = (Exception e, w).
Proof.
  intros Hs. simpl. unfold bind, on_session. rewrite Hs. eauto.
Qed.

Lemma then_all_app (stmts stmts' : list (value -> result unit * value))
    (doc : value) :
  then_all (stmts ++ stmts') doc
  = then_stmt (then_all stmts) (then_all stmts') doc.
Proof.
  revert doc. induction stmts as [|f stmts IH]; intros doc; simpl.
  - unfold then_stmt. reflexivity.
  - unfold then_stmt. destruct (f doc) as [r d1].
    destruct r as [[]|e]; [|reflexivity]. rewrite IH. reflexivity.
Qed.

Lemma disk_after_save_again (w w1 : world) (d1 d2 : value) :
  writable w1 = writable w ->
  disk w1 = disk_after_save d1 w ->
  d2 <> VNone ->
  disk_after_save d2 w1 = disk_after_save d2 w.
Proof.
  intros Hw Hd Hne. unfold disk_after_save in *. rewrite Hw, Hd.
  destruct (writable w); destruct d2; try congruence; destruct d1; reflexivity.
Qed.

(** A button that runs statements on the session's document and then saves
    it: how it ends, and the session and the file afterwards. *)
Lemma button_run (stmts : list (value -> result unit * value)) (w : world)
    (doc doc' : value) (r : result unit) :
  session_settings w = Some doc ->
  then_all stmts doc = (r, doc') ->
  exists w',
    on_session_all stmts
      (settings <- read_session ;; _ <- save_settings settings ;; ret tt) w
    = (control_of r, w') /\
    session_settings w' = Some doc' /\
    disk w'
    = match r with
      | Ret _ => disk_after_save doc' w
      | Raise _ => disk w
      end /\
    writable w' = writable w /\
    readable w' = readable w.
Proof.
  intros Hs Hrun. rewrite (on_session_all_run _ _ w doc doc' r Hs Hrun).
  destruct r as [[]|e]; simpl.
  - erewrite bind_normal by (apply read_session_eval; reflexivity).
    destruct (save_settings_effect doc' (set_session (Some doc') w))
      as (w1 & Hsave & Hdisk & Hsess & _ & _ & Hr & Hw).
    erewrite bind_normal by exact Hsave.
    exists w1. repeat split; auto.
  - eexists. repeat split; reflexivity.
Qed.

(** The same for [update_and_save]. *)
Lemma update_run (key : string) (v : value) (w : world)
    (doc doc' : value) (r : result unit) :
  session_settings w = Some doc ->
  assign key v doc = (r, doc') ->
  exists c w',
    update_and_save key v w = (c, w') /\
    match r with
    | Ret _ => exists b, c = Normal b
    | Raise e => c = Exception e
    end /\
    session_settings w' = Some doc' /\
    disk w'
    = match r with
      | Ret _ => disk_after_save doc' w
      | Raise _ => disk w
      end /\
    writable w' = writable w /\
    readable w' = readable w.
Proof.
  intros Hs Ha. rewrite (update_and_save_run key v w doc doc' r Hs Ha).
  destruct r as [[]|e].
  - destruct (save_settings_effect doc' (set_session (Some doc') w))
      as (w1 & Hsave & Hdisk & Hsess & _ & _ & Hr & Hw).
    rewrite Hsave. eexists. exists w1. repeat split; eauto.
  - eexists. eexists. repeat split; reflexivity.
Qed.

Lemma update_none (key : string) (v : value) (w : world) :
  session_settings w = None ->
  exists e, update_and_save key v w = (Exception e, w).
Proof.
  intros Hs. unfold update_and_save, bind, on_session. rewrite Hs. eauto.
Qed.

Lemma assign_ret_not_none (key : string) (v : value) (doc doc' : value) :
  assign key v doc = (Ret tt, doc') -> doc' <> VNone.
Proof.
  intros H. apply navigate_ret_dict in H. destruct doc'; discriminate.
Qed.

(** One step below the top: [update_and_save("k.a", v)] makes sure [k] is
    there and assigns [k.a]. *)
Lemma navigate_one (c : value) (k a : string) (v : value) :
  navigate_and_assign c [k] a v
  = then_stmt (ensure_mapping k)
      (fun s => with_item s k (fun m => setitem m a v)) c.
Proof.
  simpl. unfold then_stmt, ensure_mapping.
  destruct (py_contains k c) as [present|e]; [|reflexivity].
  destruct present; [reflexivity|].
  destruct (setitem c k (VDict [])) as [r c1]. destruct r; reflexivity.
Qed.

(** Once a field of the mapping at [k] has been assigned, [k] is there and
    assigning another of its fields does not fail. *)
Lemma set_field_again (d d2 : value) (k a b : string) (va vb : value) :
  with_item d k (fun m => setitem m a va) = (Ret tt, d2) ->
  ensure_mapping k d2 = (Ret tt, d2)
  /\ exists d3, with_item d2 k (fun m => setitem m b vb) = (Ret tt, d3).
Proof.
  unfold with_item, ensure_mapping. intros H.
  destruct d as [| | | | | |dd]; simpl in H; try discriminate.
  destruct (dict_get k dd) as [x|] eqn:Hk; [|discriminate].
  destruct x as [| | | | | |m]; simpl in H; try discriminate.
  inversion H; subst. simpl. unfold dict_mem.
  rewrite dict_get_set_same. simpl. eauto.
Qed.

Lemma two_fields_as_updates (k a b : string) (va vb : value)
    (key1 key2 : string) (w : world) :
  split "." key1 = [k; a] -> split "." key2 = [k; b] ->
  outcome_of
    (on_session_all
       [ ensure_mapping k;
         (fun s => with_item s k (fun m => setitem m a va));
         (fun s => with_item s k (fun m => setitem m b vb)) ]
       (settings <- read_session ;; _ <- save_settings settings ;; ret tt) w)
  = outcome_of ((update_and_save key1 va ;; update_and_save key2 vb) w).
Proof.
  intros H1 H2. unfold outcome_of.
  destruct (session_settings w) as [doc|] eqn:Hs.
  2:{ destruct (on_session_all_none (ensure_mapping k)
                  [ (fun s => with_item s k (fun m => setitem m a va));
                    (fun s => with_item s k (fun m => setitem m b vb)) ]
                  (settings <- read_session ;; _ <- save_settings settings ;; ret tt)
                  w Hs) as [e He].
      destruct (update_none key1 va w Hs) as [e' He'].
      rewrite He. erewrite bind_exception by exact He'. reflexivity. }
  assert (forall d v, assign key1 v d
                      = then_stmt (ensure_mapping k)
                          (fun s => with_item s k (fun m => setitem m a v)) d)
    as Hassign1.
  { intros d v. unfold assign. rewrite H1. apply navigate_one. }
  assert (forall d v, assign key2 v d
                      = then_stmt (ensure_mapping k)
                          (fun s => with_item s k (fun m => setitem m b v)) d)
    as Hassign2.
  { intros d v. unfold assign. rewrite H2. apply navigate_one. }
  destruct (assign key1 va doc) as [r1 d1] eqn:Ha1.
  pose proof Ha1 as Hstmt. rewrite Hassign1 in Hstmt. unfold then_stmt in Hstmt.
  destruct (ensure_mapping k doc) as [r0 d0] eqn:He0.
  destruct (update_run key1 va w doc d1 r1 Hs Ha1)
    as (c1 & w1 & Hu1 & Hc1 & Hs1 & Hd1 & Hw1 & _).
  destruct r0 as [[]|e0].
  - destruct (with_item d0 k (fun m => setitem m a va)) as [ra da] eqn:Hwa.
    inversion Hstmt; subst ra da.
    destruct r1 as [[]|e1].
    + destruct (set_field_again d0 d1 k a b va vb Hwa) as (Hens & d3 & Hwb).
      assert (assign key2 vb d1 = (Ret tt, d3)) as Ha2.
      { rewrite Hassign2. unfold then_stmt. now rewrite Hens. }
      destruct (button_run
                  [ ensure_mapping k;
                    (fun s => with_item s k (fun m => setitem m a va));
                    (fun s => with_item s k (fun m => setitem m b vb)) ]
                  w doc d3 (Ret tt) Hs)
        as (wb & Hb & Hsb & Hdb & _).
      { simpl. unfold then_stmt. rewrite He0, Hwa, Hwb. reflexivity. }
      destruct (update_run key2 vb w1 d1 d3 (Ret tt) Hs1 Ha2)
        as (c2 & w2 & Hu2 & _ & Hs2 & Hd2 & _).
      destruct Hc1 as [b1 ->].
      rewrite Hb. erewrite bind_normal by exact Hu1. rewrite Hu2. simpl.
      rewrite Hsb, Hs2, Hdb, Hd2. f_equal.
      symmetry. eapply disk_after_save_again; eauto.
      eapply assign_ret_not_none; eauto.
    + destruct (button_run
                  [ ensure_mapping k;
                    (fun s => with_item s k (fun m => setitem m a va));
                    (fun s => with_item s k (fun m => setitem m b vb)) ]
                  w doc d1 (Raise e1) Hs)
        as (wb & Hb & Hsb & Hdb & _).
      { simpl. unfold then_stmt. rewrite He0, Hwa. reflexivity. }
      subst c1. rewrite Hb. erewrite bind_exception by exact Hu1. simpl.
      now rewrite Hsb, Hs1, Hdb, Hd1.
  - inversion Hstmt; subst r1 d1.
    destruct (button_run
                [ ensure_mapping k;
                  (fun s => with_item s k (fun m => setitem m a va));
                  (fun s => with_item s k (fun m => setitem m b vb)) ]
                w doc d0 (Raise e0) Hs)
      as (wb & Hb & Hsb & Hdb & _).
    { simpl. unfold then_stmt. rewrite He0. reflexivity. }
    subst c1. rewrite Hb. erewrite bind_exception by exact Hu1. simpl.
    now rewrite Hsb, Hs1, Hdb, Hd1.
Qed.

(** X13.  "Save Model Settings" leaves the session's document and the file
    exactly as [update_and_save("model.provider", ...)] followed by
    [update_and_save("model.name", ...)] does, whatever the document: a
    mapping is created for [model] when it is missing, and a [model] that
    is not a mapping stops both before anything is changed or saved. *)
Theorem save_model_settings_as_updates (model_provider : provider)
    (model_name : string) (w : world) :
  outcome_of (save_model_settings model_provider model_name w)
  = outcome_of
      ((update_and_save "model.provider" (VStr (provider_name model_provider)) ;;
        update_and_save "model.name" (VStr model_name)) w).
Proof.
  apply (two_fields_as_updates "model" "provider" "name"); reflexivity.
Qed.

(** X14.  "Save Search Settings" leaves the session's document and the file
    exactly as [update_and_save("search.engine", ...)] followed by
    [update_and_save("search.results", ...)] does. *)
Theorem save_search_settings_as_updates (search_engine : engine)
    (search_results : Z) (w : world) :
  outcome_of (save_search_settings search_engine search_results w)
  = outcome_of
      ((update_and_save "search.engine" (VStr (engine_name search_engine)) ;;
        update_and_save "search.results" (VInt search_results)) w).
Proof.
  apply (two_fields_as_updates "search" "engine" "results"); reflexivity.
Qed.

Lemma setitem_again (d d1 : value) (a b : string) (va vb : value) :
  setitem d a va = (Ret tt, d1) ->
  exists d2, setitem d1 b vb = (Ret tt, d2).
Proof.
  destruct d; simpl; intros H; inversion H; subst; simpl; eauto.
Qed.

Lemma with_item_ret_dict {A : Type} (d d' : value) (k : string)
    (f : value -> result A * value) (a : A) :
  with_item d k f = (Ret a, d') -> is_dict d' = true.
Proof.
  unfold with_item. destruct d; simpl; try discriminate.
  destruct (dict_get k items); [|discriminate].
  destruct (f v) as [r x]. intros H. now inversion H.
Qed.

Lemma setitem_on_dict (d : value) (k : string) (v : value) :
  is_dict d = true -> exists d', setitem d k v = (Ret tt, d').
Proof. destruct d; simpl; try discriminate; eauto. Qed.

(** X15.  "Save File Paths" leaves the session's document and the file
    exactly as [update_and_save("input_csv", ...)] followed by
    [update_and_save("output_csv", ...)] does. *)
Theorem save_file_paths_as_updates (input_csv output_csv : string) (w : world) :
  outcome_of (save_file_paths input_csv output_csv w)
  = outcome_of
      ((update_and_save "input_csv" (VStr input_csv) ;;
        update_and_save "output_csv" (VStr output_csv)) w).
Proof.
  unfold outcome_of.
  change (save_file_paths input_csv output_csv)
    with (on_session_all
            [ (fun s => setitem s "input_csv" (VStr input_csv));
              (fun s => setitem s "output_csv" (VStr output_csv)) ]
            (settings <- read_session ;; _ <- save_settings settings ;; ret tt)).
  destruct (session_settings w) as [doc|] eqn:Hs.
  2:{ destruct (on_session_all_none
                  (fun s => setitem s "input_csv" (VStr input_csv))
                  [ (fun s => setitem s "output_csv" (VStr output_csv)) ]
                  (settings <- read_session ;; _ <- save_settings settings ;; ret tt)
                  w Hs) as [e He].
      destruct (update_none "input_csv" (VStr input_csv) w Hs) as [e' He'].
      rewrite He. erewrite bind_exception by exact He'. reflexivity. }
  assert (forall k v d, split "." k = [k] -> assign k v d = setitem d k v)
    as Hassign.
  { intros k v d Hk. unfold assign. rewrite Hk. reflexivity. }
  destruct (setitem doc "input_csv" (VStr input_csv)) as [r1 d1] eqn:H1.
  destruct (update_run "input_csv" (VStr input_csv) w doc d1 r1 Hs)
    as (c1 & w1 & Hu1 & Hc1 & Hs1 & Hd1 & Hw1 & _).
  { now rewrite Hassign. }
  destruct r1 as [[]|e1].
  - destruct (setitem_again doc d1 "input_csv" "output_csv"
                (VStr input_csv) (VStr output_csv) H1) as [d2 H2].
    destruct (button_run
                [ (fun s => setitem s "input_csv" (VStr input_csv));
                  (fun s => setitem s "output_csv" (VStr output_csv)) ]
                w doc d2 (Ret tt) Hs)
      as (wb & Hb & Hsb & Hdb & _).
    { simpl. unfold then_stmt. rewrite H1, H2. reflexivity. }
    destruct (update_run "output_csv" (VStr output_csv) w1 d1 d2 (Ret tt) Hs1)
      as (c2 & w2 & Hu2 & _ & Hs2 & Hd2 & _).
    { now rewrite Hassign. }
    destruct Hc1 as [b1 ->].
    rewrite Hb. erewrite bind_normal by exact Hu1. rewrite Hu2. simpl.
    rewrite Hsb, Hs2, Hdb, Hd2. f_equal.
    symmetry. eapply disk_after_save_again; eauto.
    destruct d1; simpl in H2; inversion H2; discriminate.
  - destruct (button_run
                [ (fun s => setitem s "input_csv" (VStr input_csv));
                  (fun s => setitem s "output_csv" (VStr output_csv)) ]
                w doc d1 (Raise e1) Hs)
      as (wb & Hb & Hsb & Hdb & _).
    { simpl. unfold then_stmt. rewrite H1. reflexivity. }
    subst c1. rewrite Hb. erewrite bind_exception by exact Hu1. simpl.
    now rewrite Hsb, Hs1, Hdb, Hd1.
Qed.

(** Where [prompt] is not a bare string, lines 222-223 do what
    [ensure_mapping] does, up to the statement at which a document that is
    not a mapping stops the button. *)
Lemma reset_vs_ensure (doc : value) :
  (forall s, lookup_path ["prompt"] doc <> Some (VStr s)) ->
  reset_legacy_prompt doc = ensure_mapping "prompt" doc
  \/ exists e,
       reset_legacy_prompt doc = (Raise e, doc) /\
       ensure_mapping "prompt" doc = (Ret tt, doc) /\
       forall f : value -> result unit * value,
         with_item doc "prompt" f = (Raise e, doc).
Proof.
  intros Hlegacy. unfold reset_legacy_prompt, ensure_mapping.
  destruct doc as [| | | |s|l|d]; simpl; auto.
  - destruct (index 0 "prompt" s); simpl; [right|left; reflexivity].
    eexists. repeat split.
  - destruct (existsb _ l); simpl; [right|left; reflexivity].
    eexists. repeat split.
  - left. unfold dict_mem. simpl in Hlegacy.
    destruct (dict_get "prompt" d) as [x|]; simpl; [|reflexivity].
    destruct x; try reflexivity. exfalso. now apply (Hlegacy s).
Qed.

(** X16.  When [prompt] is not a bare string, "Save Prompt Settings" leaves
    the session's document and the file exactly as
    [update_and_save("prompt.system", ...)], [update_and_save("prompt.user",
    ...)] and [update_and_save("logfire", ...)] in this order do. *)
Theorem save_prompt_settings_as_updates (system_prompt user_prompt : string)
    (logfire : bool) (w : world) :
  (forall s, session_at w ["prompt"] <> Some (VStr s)) ->
  outcome_of (save_prompt_settings system_prompt user_prompt logfire w)
  = outcome_of
      ((update_and_save "prompt.system" (VStr system_prompt) ;;
        update_and_save "prompt.user" (VStr user_prompt) ;;
        update_and_save "logfire" (VBool logfire)) w).
Proof.
  intros Hlegacy. unfold outcome_of.
  set (A := fun s => with_item s "prompt"
                       (fun p => setitem p "system" (VStr system_prompt))).
  set (B := fun s => with_item s "prompt"
                       (fun p => setitem p "user" (VStr user_prompt))).
  set (C := fun s => setitem s "logfire" (VBool logfire)).
  change (save_prompt_settings system_prompt user_prompt logfire)
    with (on_session_all [ reset_legacy_prompt; A; B; C ]
            (settings <- read_session ;; _ <- save_settings settings ;; ret tt)).
  destruct (session_settings w) as [doc|] eqn:Hs.
  2:{ destruct (on_session_all_none reset_legacy_prompt [A; B; C]
                  (settings <- read_session ;; _ <- save_settings settings ;; ret tt)
                  w Hs) as [e He].
      destruct (update_none "prompt.system" (VStr system_prompt) w Hs)
        as [e' He'].
      rewrite He. erewrite bind_exception by exact He'. reflexivity. }
  assert (forall d, assign "prompt.system" (VStr system_prompt) d
                    = then_stmt (ensure_mapping "prompt") A d) as Hassign1.
  { intros d. apply navigate_one. }
  assert (forall d, assign "prompt.user" (VStr user_prompt) d
                    = then_stmt (ensure_mapping "prompt") B d) as Hassign2.
  { intros d. apply navigate_one. }
  assert (forall d, assign "logfire" (VBool logfire) d = C d) as Hassign3.
  { intros d. reflexivity. }
  assert (then_stmt reset_legacy_prompt A doc
          = then_stmt (ensure_mapping "prompt") A doc) as Hfirst.
  { unfold session_at in Hlegacy. rewrite Hs in Hlegacy.
    destruct (reset_vs_ensure doc Hlegacy) as [Heq|(e & Hr & He & Hw)].
    - unfold then_stmt. now rewrite Heq.
    - unfold then_stmt. rewrite Hr, He. unfold A. now rewrite Hw. }
  destruct (assign "prompt.system" (VStr system_prompt) doc) as [r1 d1] eqn:Ha1.
  destruct (update_run _ _ w doc d1 r1 Hs Ha1)
    as (c1 & w1 & Hu1 & Hc1 & Hs1 & Hd1 & Hw1 & _).
  rewrite Hassign1, <- Hfirst in Ha1. unfold then_stmt in Ha1.
  destruct (reset_legacy_prompt doc) as [r0 d0] eqn:Hr0.
  assert (forall r d, then_stmt reset_legacy_prompt A doc = (r, d) ->
                      then_all [ reset_legacy_prompt; A; B; C ] doc
                      = match r with
                        | Ret _ => then_stmt B C d
                        | Raise e => (Raise e, d)
                        end) as Hall.
  { intros r d H. simpl. unfold then_stmt in *. rewrite Hr0 in *.
    destruct r0 as [[]|e0].
    - destruct (A d0) as [ra da]. inversion H; subst.
      destruct r as [[]|e]; [|reflexivity].
      destruct (B d) as [rb db]. destruct rb as [[]|eb]; [|reflexivity].
      destruct (C db) as [rc dc]. destruct rc as [[]|ec]; reflexivity.
    - inversion H; subst. reflexivity. }
  assert (then_stmt reset_legacy_prompt A doc = (r1, d1)) as Hstep1.
  { unfold then_stmt. rewrite Hr0. exact Ha1. }
  specialize (Hall r1 d1 Hstep1).
  destruct r1 as [[]|e1].
  - assert (exists d00, A d00 = (Ret tt, d1)) as [d00 HA].
    { destruct r0 as [[]|e0]; [eauto|discriminate]. }
    destruct (set_field_again d00 d1 "prompt" "system" "user"
                (VStr system_prompt) (VStr user_prompt) HA)
      as (Hens & d2 & HB).
    change (B d1 = (Ret tt, d2)) in HB.
    destruct (setitem_on_dict d2 "logfire" (VBool logfire)) as [d3 HC].
    { eapply with_item_ret_dict; eauto. }
    change (C d2 = (Ret tt, d3)) in HC.
    assert (then_all [ reset_legacy_prompt; A; B; C ] doc = (Ret tt, d3)) as Hprog.
    { rewrite Hall. unfold then_stmt. rewrite HB. exact HC. }
    destruct (button_run _ w doc d3 (Ret tt) Hs Hprog)
      as (wb & Hb & Hsb & Hdb & _).
    assert (assign "prompt.user" (VStr user_prompt) d1 = (Ret tt, d2)) as Ha2.
    { rewrite Hassign2. unfold then_stmt. now rewrite Hens. }
    destruct (update_run _ _ w1 d1 d2 (Ret tt) Hs1 Ha2)
      as (c2 & w2 & Hu2 & [b2 ->] & Hs2 & Hd2 & Hw2 & _).
    assert (assign "logfire" (VBool logfire) d2 = (Ret tt, d3)) as Ha3.
    { now rewrite Hassign3. }
    destruct (update_run _ _ w2 d2 d3 (Ret tt) Hs2 Ha3)
      as (c3 & w3 & Hu3 & _ & Hs3 & Hd3 & _).
    destruct Hc1 as [b1 ->].
    rewrite Hb. erewrite bind_normal by exact Hu1.
    erewrite bind_normal by exact Hu2. rewrite Hu3. simpl.
    rewrite Hsb, Hs3, Hdb, Hd3. f_equal. symmetry.
    assert (d3 <> VNone) as Hd3ne
      by (destruct d2; simpl in HC; inversion HC; discriminate).
    transitivity (disk_after_save d3 w1).
    + apply (disk_after_save_again w1 w2 d2 d3); auto.
    + apply (disk_after_save_again w w1 d1 d3); auto.
  - destruct (button_run _ w doc d1 (Raise e1) Hs Hall)
      as (wb & Hb & Hsb & Hdb & _).
    subst c1. rewrite Hb. erewrite bind_exception by exact Hu1. simpl.
    now rewrite Hsb, Hs1, Hdb, Hd1.
Qed.

(** Buttons in a row: the session's document is the one the statements of
    all of them, in order, produce; when all go through, the file is as
    after saving that document. *)
Lemma press_all_run (buttons : list (list (value -> result unit * value))) :
  Forall (fun stmts => forall d d', then_all stmts d = (Ret tt, d') -> d' <> VNone)
         buttons ->
  forall (w : world) (doc doc' : value) (r : result unit),
    session_settings w = Some doc ->
    then_all (List.concat buttons) doc = (r, doc') ->
    exists w',
      press_all buttons w = (control_of r, w') /\
      session_settings w' = Some doc' /\
      writable w' = writable w /\
      (forall u, r = Ret u -> buttons <> [] ->
                 disk w' = disk_after_save doc' w /\ doc' <> VNone).
Proof.
  induction 1 as [|stmts rest Hstmts Hrest IH]; intros w doc doc' r Hs Hrun.
  - simpl in *. inversion Hrun; subst. exists w. repeat split; auto;
      intros; congruence.
  - simpl List.concat in Hrun. rewrite then_all_app in Hrun.
    unfold then_stmt in Hrun.
    destruct (then_all stmts doc) as [r1 d1] eqn:H1.
    destruct (button_run stmts w doc d1 r1 Hs H1)
      as (w1 & Hb & Hs1 & Hd1 & Hw1 & _).
    destruct r1 as [[]|e1].
    + destruct rest as [|stmts' rest'].
      * simpl in Hrun. inversion Hrun; subst. simpl press_all.
        exists w1. repeat split; eauto.
      * destruct (IH w1 d1 doc' r Hs1 Hrun) as (w' & Hp & Hs' & Hw' & Hdisk).
        exists w'.
        change (press_all ((stmts :: stmts' :: rest')))
          with (on_session_all stmts
                  (settings <- read_session ;;
                   _ <- save_settings settings ;; ret tt) ;;
                press_all (stmts' :: rest')).
        erewrite bind_normal by exact Hb.
        split; [exact Hp|]. split; [exact Hs'|]. split; [congruence|].
        intros u Hu _. destruct (Hdisk u Hu) as [Hd' Hne]; [discriminate|].
        split; [|exact Hne]. rewrite Hd'.
        apply (disk_after_save_again w w1 d1 doc'); auto.
    + inversion Hrun; subst.
      exists w1. split.
      * destruct rest as [|stmts' rest']; [exact Hb|].
        change (press_all ((stmts :: stmts' :: rest')))
          with (on_session_all stmts
                  (settings <- read_session ;;
                   _ <- save_settings settings ;; ret tt) ;;
                press_all (stmts' :: rest')).
        now erewrite bind_exception by exact Hb.
      * repeat split; auto; intros; discriminate.
Qed.

(** "Save All Configuration": how it ends, and the session and the file
    afterwards. *)
Lemma save_all_run (stmts : list (value -> result unit * value)) (w : world)
    (doc doc' : value) (r : result unit) :
  session_settings w = Some doc ->
  then_all stmts doc = (r, doc') ->
  exists w',
    on_session_all stmts
      (settings <- read_session ;;
       saved_ok <- save_settings settings ;;
       when saved_ok
         (st_balloons ;; st_success "All settings saved successfully!")) w
    = (control_of r, w') /\
    session_settings w' = Some doc' /\
    disk w'
    = match r with
      | Ret _ => disk_after_save doc' w
      | Raise _ => disk w
      end.
Proof.
  intros Hs Hrun. rewrite (on_session_all_run _ _ w doc doc' r Hs Hrun).
  destruct r as [[]|e]; simpl.
  - erewrite bind_normal by (apply read_session_eval; reflexivity).
    destruct (save_settings_effect doc' (set_session (Some doc') w))
      as (w1 & Hsave & Hdisk & Hsess & _).
    erewrite bind_normal by exact Hsave.
    destruct (save_ok doc' (set_session (Some doc') w)); simpl.
    + unfold bind, st_balloons, st_success. simpl.
      eexists. split; [reflexivity|]. simpl. auto.
    + unfold ret. eexists. split; [reflexivity|]. auto.
  - eexists. repeat split; reflexivity.
Qed.

(** X17.  "Save All Configuration" changes the session's document exactly
    as the four section buttons pressed in order do ("Save File Paths",
    "Save Model Settings", "Save Search Settings", "Save Prompt Settings"),
    and it goes through exactly when the four do.  When it goes through the
    file is the same too; when it raises it has saved nothing, although the
    session's document keeps the assignments made before the exception. *)
Theorem save_all_as_buttons (input_csv output_csv : string)
    (model_provider : provider) (model_name : string)
    (search_engine : engine) (search_results : Z)
    (system_prompt user_prompt : string) (logfire : bool) (w : world) :
  let all :=
    save_all_configuration input_csv output_csv model_provider model_name
      search_engine search_results system_prompt user_prompt logfire w in
  let four :=
    (save_file_paths input_csv output_csv ;;
     save_model_settings model_provider model_name ;;
     save_search_settings search_engine search_results ;;
     save_prompt_settings system_prompt user_prompt logfire) w in
  session_settings (snd all) = session_settings (snd four)
  /\ fst all = fst four
  /\ (fst all = Normal tt -> disk (snd all) = disk (snd four))
  /\ (forall e, fst all = Exception e -> disk (snd all) = disk w).
Proof.
  set (P1 := [ (fun s => setitem s "input_csv" (VStr input_csv));
               (fun s => setitem s "output_csv" (VStr output_csv)) ]).
  set (P2 := [ ensure_mapping "model";
               (fun s => with_item s "model"
                  (fun m => setitem m "provider"
                              (VStr (provider_name model_provider))));
               (fun s => with_item s "model"
                  (fun m => setitem m "name" (VStr model_name))) ]).
  set (P3 := [ ensure_mapping "search";
               (fun s => with_item s "search"
                  (fun m => setitem m "engine"
                              (VStr (engine_name search_engine))));
               (fun s => with_item s "search"
                  (fun m => setitem m "results" (VInt search_results))) ]).
  set (P4 := [ reset_legacy_prompt;
               (fun s => with_item s "prompt"
                  (fun p => setitem p "system" (VStr system_prompt)));
               (fun s => with_item s "prompt"
                  (fun p => setitem p "user" (VStr user_prompt)));
               (fun s => setitem s "logfire" (VBool logfire)) ]).
  change (save_all_configuration input_csv output_csv model_provider
            model_name search_engine search_results system_prompt
            user_prompt logfire)
    with (on_session_all (List.concat [P1; P2; P3; P4])
            (settings <- read_session ;;
             saved_ok <- save_settings settings ;;
             when saved_ok
               (st_balloons ;; st_success "All settings saved successfully!"))).
  change (save_file_paths input_csv output_csv ;;
          save_model_settings model_provider model_name ;;
          save_search_settings search_engine search_results ;;
          save_prompt_settings system_prompt user_prompt logfire)
    with (press_all [P1; P2; P3; P4]).
  cbv zeta.
  destruct (session_settings w) as [doc|] eqn:Hs.
  - destruct (then_all (List.concat [P1; P2; P3; P4]) doc) as [r doc'] eqn:Hrun.
    destruct (save_all_run _ w doc doc' r Hs Hrun) as (wa & Ha & Hsa & Hda).
    assert (Forall (fun stmts => forall d d',
                        then_all stmts d = (Ret tt, d') -> d' <> VNone)
                   [P1; P2; P3; P4]) as Hdocs.
    { repeat constructor; intros d d' H; simpl in H; unfold then_stmt in H;
        repeat match type of H with
               | (let (_, _) := ?f ?x in _) = _ =>
                   let r := fresh "r" in
                   let y := fresh "y" in
                   let E := fresh "E" in
                   destruct (f x) as [r y] eqn:E;
                   destruct r as [[]|?]; [|discriminate]
               end;
        inversion H; subst;
        match goal with
        | E : setitem ?x _ _ = (Ret tt, d') |- _ =>
            destruct x; simpl in E; inversion E; discriminate
        | E : with_item _ _ _ = (Ret tt, d') |- _ =>
            apply with_item_ret_dict in E; destruct d'; discriminate
        end. }
    destruct (press_all_run [P1; P2; P3; P4] Hdocs w doc doc' r Hs Hrun)
      as (wf & Hf & Hsf & _ & Hdf).
    rewrite Ha, Hf. simpl. rewrite Hsa, Hsf.
    split; [reflexivity|]. split; [reflexivity|]. split.
    + intros Hnormal. destruct r as [u|e]; [|discriminate].
      destruct (Hdf u eq_refl) as [Hd _]; [discriminate|].
      now rewrite Hda, Hd.
    + intros e He. destruct r as [u|e']; [discriminate|]. exact Hda.
  - destruct (on_session_all_none
                (fun s => setitem s "input_csv" (VStr input_csv))
                ((fun s => setitem s "output_csv" (VStr output_csv))
                 :: (P2 ++ P3 ++ P4))%list
                (settings <- read_session ;;
                 saved_ok <- save_settings settings ;;
                 when saved_ok
                   (st_balloons ;; st_success "All settings saved successfully!"))
                w Hs) as [e He].
    change (List.concat [P1; P2; P3; P4])
      with ((fun s => setitem s "input_csv" (VStr input_csv))
            :: (fun s => setitem s "output_csv" (VStr output_csv))
            :: (P2 ++ P3 ++ P4))%list.
    rewrite He.
    destruct (on_session_all_none
                (fun s => setitem s "input_csv" (VStr input_csv))
                [ (fun s => setitem s "output_csv" (VStr output_csv)) ]
                (settings <- read_session ;; _ <- save_settings settings ;; ret tt)
                w Hs) as [e' He'].
    change (press_all [P1; P2; P3; P4])
      with (on_session_all P1
              (settings <- read_session ;; _ <- save_settings settings ;; ret tt) ;;
            press_all [P2; P3; P4]).
    erewrite bind_exception by exact He'. simpl.
    assert (e = e') as ->.
    { simpl in He, He'. unfold bind, on_session in He, He'.
      rewrite Hs in He, He'. congruence. }
    repeat split; auto.
Qed.

(** *** The prompt section, the import and the raw editor *)



Lemma import_writes (w : world) (raw : string) (doc : value) :
  yaml_safe_load raw = Ret doc -> doc <> VNone -> writable w = true ->
  exists c w1,
    import_configuration raw w = (c, w1) /\
    disk w1 = Some (yaml_dump false doc) /\
    session_settings w1 = session_settings w /\
    readable w1 = readable w /\
    writable w1 = writable w.
Proof.
  intros Hparse Hne Hw. unfold import_configuration, try_except.
  erewrite bind_normal by (rewrite Hparse; reflexivity).
  destruct (save_settings_effect doc w)
    as (w1 & Hsave & Hdisk & Hsess & _ & _ & Hr1 & Hw1).
  erewrite bind_normal by exact Hsave.
  assert (disk w1 = Some (yaml_dump false doc)) as Hd.
  { rewrite Hdisk. unfold disk_after_save. rewrite Hw.
    destruct doc; auto; congruence. }
  destruct (save_ok doc w); cbn; eauto 10.
Qed.

Lemma truthy_not_none (doc : value) : truthy doc = true -> doc <> VNone.
Proof. intros H ->. discriminate. Qed.

(** X20.  The import does not check that the upload is a mapping.  A
    document that is not a mapping (a list, a string) is written to the
    file as it is; the next session then loads it as its document, and from
    there the prompt section raises [AttributeError] and every
    [update_and_save] raises [TypeError]. *)
Theorem import_accepts_non_mapping (w : world) (raw : string) (doc : value) :
  yaml_safe_load raw = Ret doc ->
  is_dict doc = false -> truthy doc = true ->
  writable w = true -> readable w = true ->
  yaml_safe_load (yaml_dump false doc) = Ret doc ->
  let w1 := snd (import_configuration raw w) in
  disk w1 = Some (yaml_dump false doc)
  /\ exists w2,
       startup (new_session w1) = (Normal tt, w2) /\
       session_settings w2 = Some doc /\
       (exists msg, prompt_defaults w2 = (Exception (AttributeError msg), w2)) /\
       (forall key v,
           exists msg, update_and_save key v w2 = (Exception (TypeError msg), w2)).
Proof.
  intros Hparse Hdict Ht Hw Hr Hback w1.
  destruct (import_writes w raw doc Hparse (truthy_not_none _ Ht) Hw)
    as (c & w1' & Hrun & Hd1 & _ & Hr1 & _).
  assert (w1 = w1') as -> by (unfold w1; now rewrite Hrun).
  split; [exact Hd1|].
  assert (load_settings (new_session w1') = (Normal doc, new_session w1'))
    as Hload.
  { apply (load_parsed _ (yaml_dump false doc)); auto. simpl. congruence. }
  eexists. split.
  - unfold startup. simpl. erewrite bind_normal by exact Hload. reflexivity.
  - simpl. split; [reflexivity|]. split.
    + unfold prompt_defaults, bind, read_session, lift, py_get, raise. simpl.
      destruct doc; try discriminate; eauto.
    + intros key v. unfold update_and_save, bind, on_session. simpl.
      destruct (navigate_not_dict doc (removelast (split "." key))
                  (last (split "." key) "") v Hdict) as [msg Hmsg].
      rewrite Hmsg. eauto.
Qed.

(** X21.  What the import leaves undone the "Force Reload Settings" button
    does: pressed after an import that went through, it puts the imported
    document in the session and asks for a rerun. *)
Theorem import_then_force_reload (w : world) (raw : string) (doc : value)
    (u : widgets) :
  yaml_safe_load raw = Ret doc -> truthy doc = true ->
  writable w = true -> readable w = true ->
  yaml_safe_load (yaml_dump false doc) = Ret doc ->
  button u "Force Reload Settings" = true ->
  exists w2,
    force_reload u (snd (import_configuration raw w)) = (RerunScript, w2) /\
    session_settings w2 = Some doc /\
    disk w2 = Some (yaml_dump false doc).
Proof.
  intros Hparse Ht Hw Hr Hback Hpressed.
  destruct (import_writes w raw doc Hparse (truthy_not_none _ Ht) Hw)
    as (c & w1 & Hrun & Hd1 & _ & Hr1 & _).
  rewrite Hrun. simpl.
  assert (load_settings w1 = (Normal doc, w1)) as Hload.
  { apply (load_parsed _ (yaml_dump false doc)); auto. congruence. }
  unfold force_reload. rewrite Hpressed. simpl.
  erewrite bind_normal by exact Hload.
  unfold bind, assign_session, st_experimental_rerun. simpl.
  eexists. split; [reflexivity|]. simpl. auto.
Qed.

(** X22.  "Save Raw YAML" does to the file what the import does, for every
    text, and like the import it leaves the session's document alone; it
    neither raises nor asks for a rerun, and a text that does not parse
    changes nothing but for the message that carries the parser's. *)
Theorem save_raw_yaml_like_import (w : world) (raw : string) :
  outcome_of (save_raw_yaml raw w) = outcome_of (import_configuration raw w)
  /\ session_settings (snd (save_raw_yaml raw w)) = session_settings w
  /\ fst (save_raw_yaml raw w) = Normal tt
  /\ (forall e, yaml_safe_load raw = Raise e ->
      save_raw_yaml raw w
      = (Normal tt, show (Error ("Error parsing YAML: " ++ exn_str e)) w)).
Proof.
  destruct (import_configuration_effect w raw) as (Hsess & _ & Himport).
  unfold outcome_of. rewrite Hsess.
  unfold save_raw_yaml, try_except in *.
  destruct (yaml_safe_load raw) as [doc|e].
  - destruct Himport as [_ Hdisk]. rewrite Hdisk.
    erewrite bind_normal by reflexivity.
    destruct (save_settings_effect doc w) as (w1 & Hsave & Hd1 & Hs1 & _).
    erewrite bind_normal by exact Hsave.
    destruct (save_ok doc w); cbn; rewrite Hs1, Hd1;
      repeat split; auto; intros; discriminate.
  - rewrite Himport. cbn. repeat split; auto.
    intros e' He'. inversion He'; subst. reflexivity.
Qed.

(** *** The export *)

Lemma sort_items_ascending_id (d : dict) :
  keys_ascending d = true -> sort_items d = d.
Proof.
  induction d as [|[k x] d IH]; [reflexivity|].
  intros H. simpl sort_items. change (fold_right insert_item [] d) with (sort_items d).
  destruct d as [|[k' x'] d'].
  - reflexivity.
  - simpl in H. apply andb_true_iff in H. destruct H as [Hle Hrest].
    rewrite IH by exact Hrest. simpl. now rewrite Hle.
Qed.

Lemma sort_keys_deep_ascending_id (v : value) :
  keys_ascending_deep v = true -> sort_keys_deep v = v.
Proof.
  induction v as [ | b | z | bits | s | l IH | d IH] using value_ind_nested;
    try reflexivity; intros H; simpl in *.
  - f_equal. induction IH as [|x l Hx _ IHl]; [reflexivity|].
    simpl in H. apply andb_true_iff in H. destruct H as [H1 H2].
    simpl. now rewrite Hx, IHl.
  - apply andb_true_iff in H. destruct H as [Hkeys Hvalues].
    assert (map (fun kv => match kv with
                           | (k, x) => (k, sort_keys_deep x)
                           end) d = d) as ->.
    { clear Hkeys. induction IH as [|[k x] d Hx _ IHd]; [reflexivity|].
      simpl in Hvalues. apply andb_true_iff in Hvalues.
      destruct Hvalues as [H1 H2]. simpl in *. now rewrite Hx, IHd. }
    now rewrite sort_items_ascending_id.
Qed.

Lemma insert_item_ascending (kv : string * value) (d : dict) :
  keys_ascending d = true -> keys_ascending (insert_item kv d) = true.
Proof.
  destruct kv as [k x].
  induction d as [|[k1 x1] d IH]; intros H; [reflexivity|].
  simpl insert_item. destruct (String.leb k k1) eqn:Hle.
  - simpl. now rewrite Hle.
  - assert (String.leb k1 k = true) as Hge.
    { destruct (String.leb_total k k1) as [Hc|Hc]; congruence. }
    destruct d as [|[k2 x2] d'].
    + simpl. now rewrite Hge.
    + simpl in H. apply andb_true_iff in H. destruct H as [H12 Hrest].
      specialize (IH Hrest). simpl insert_item in IH |- *.
      destruct (String.leb k k2) eqn:Hk2.
      * simpl. simpl in IH. now rewrite Hge, IH.
      * simpl. simpl in IH. now rewrite H12, IH.
Qed.

Lemma sort_items_ascending (d : dict) : keys_ascending (sort_items d) = true.
Proof.
  induction d as [|kv d IH]; [reflexivity|].
  simpl. now apply insert_item_ascending.
Qed.

Lemma forallb_insert_item (P : string * value -> bool) (kv : string * value)
    (d : dict) :
  forallb P (insert_item kv d) = P kv && forallb P d.
Proof.
  induction d as [|kv' d IH]; simpl.
  - reflexivity.
  - destruct (String.leb (fst kv) (fst kv')); simpl; [reflexivity|].
    rewrite IH. destruct (P kv), (P kv'); reflexivity.
Qed.

Lemma forallb_sort_items (P : string * value -> bool) (d : dict) :
  forallb P (sort_items d) = forallb P d.
Proof.
  induction d as [|kv d IH]; [reflexivity|].
  simpl. rewrite forallb_insert_item. now rewrite <- IH.
Qed.

Lemma sort_keys_deep_is_ascending (v : value) :
  keys_ascending_deep (sort_keys_deep v) = true.
Proof.
  induction v as [ | b | z | bits | s | l IH | d IH] using value_ind_nested;
    try reflexivity; simpl.
  - induction IH as [|x l Hx _ IHl]; [reflexivity|].
    simpl. now rewrite Hx, IHl.
  - rewrite sort_items_ascending, forallb_sort_items. simpl.
    induction IH as [|[k x] d Hx _ IHd]; [reflexivity|].
    simpl in *. now rewrite Hx, IHd.
Qed.


(** X24.  The export is stable: sorting the keys again changes nothing, so
    the sorted document exports to the same text; and importing an export
    (which the YAML library reads back as the sorted document) leaves the
    file with the text of the export. *)
Theorem export_stable_under_import (w : world) (doc : value) :
  doc <> VNone -> writable w = true ->
  yaml_safe_load (yaml_dump true doc) = Ret (sort_keys_deep doc) ->
  sort_keys_deep (sort_keys_deep doc) = sort_keys_deep doc
  /\ yaml_dump true (sort_keys_deep doc) = yaml_dump true doc
  /\ disk (snd (import_configuration (yaml_dump true doc) w))
     = Some (yaml_dump true doc).
Proof.
  intros Hne Hw Hback.
  assert (sort_keys_deep (sort_keys_deep doc) = sort_keys_deep doc) as Hidem.
  { apply sort_keys_deep_ascending_id, sort_keys_deep_is_ascending. }
  split; [exact Hidem|]. split.
  - unfold yaml_dump. now rewrite Hidem.
  - destruct (import_writes w (yaml_dump true doc) (sort_keys_deep doc) Hback)
      as (c & w1 & Hrun & Hd1 & _); auto.
    + destruct doc; simpl; congruence.
    + rewrite Hrun. simpl. rewrite Hd1. reflexivity.
Qed.

(** *** Fields, options and examples *)





Lemma split_without_sep (sep : ascii) (s : string) :
  has_char sep s = false -> split sep s = [s].
Proof.
  induction s as [|c s IH]; [reflexivity|].
  simpl. destruct (Ascii.eqb c sep); [discriminate|].
  simpl. intros H. now rewrite IH.
Qed.

Lemma split_app_sep (sep : ascii) (s t : string) :
  has_char sep s = false ->
  split sep (s ++ String sep t) = s :: split sep t.
Proof.
  induction s as [|c s IH]; simpl.
  - now rewrite Ascii.eqb_refl.
  - destruct (Ascii.eqb c sep); [discriminate|].
    simpl. intros H. now rewrite IH.
Qed.

Lemma split_options_text (options : list string) :
  options <> [] ->
  Forall (fun o => has_char newline o = false) options ->
  split newline (options_text options) = options.
Proof.
  intros Hne H. induction H as [|o options Ho Hrest IH]; [congruence|].
  unfold options_text in *. destruct options as [|o' options'].
  - simpl. now apply split_without_sep.
  - change (String.concat (String newline "") (o :: o' :: options'))
      with (o ++ String newline (String.concat (String newline "") (o' :: options'))).
    rewrite split_app_sep by exact Ho. f_equal. apply IH. discriminate.
Qed.

(** X27.  The options of a field survive the round through the text area
    of lines 244-246: joined with line feeds and split again, options that
    are not blank and hold no line feed come back as they were, in order;
    an empty list comes back empty. *)
Theorem options_survive_text_area (options : list string) :
  Forall (fun o => nonblank o = true /\ has_char newline o = false) options ->
  option_lines (options_text options) = options.
Proof.
  intros H. unfold option_lines.
  destruct options as [|o options]; [reflexivity|].
  rewrite split_options_text.
  - apply forallb_filter_id. apply forallb_forall. intros x Hx.
    rewrite Forall_forall in H. now apply H.
  - discriminate.
  - eapply Forall_impl; [|exact H]. now intros a [_ Ha].
Qed.


Lemma dict_keys_set_in (k name : string) (x : value) (d : dict) :
  In name (dict_keys (dict_set k x d)) -> name = k \/ In name (dict_keys d).
Proof.
  unfold dict_keys. induction d as [|[k' v'] d IH]; simpl.
  - intros [H|[]]; auto.
  - destruct (String.eqb k k') eqn:E; simpl; intros [H|H]; auto.
    destruct (IH H); auto.
Qed.

Lemma dict_get_not_in_keys (k : string) (d : dict) :
  ~ In k (dict_keys d) -> dict_get k d = None.
Proof.
  intros H. destruct (dict_get k d) eqn:E; [|reflexivity].
  apply dict_get_in_keys in E. contradiction.
Qed.

Lemma new_output_entry_typed (ew : example_widgets) (name : string)
    (config x : value) :
  new_output_entry ew name config = Ret (Some x) ->
  exists t, py_get config "type" (VStr "str") = Ret (VStr t)
            /\ In t ["str"; "int"; "float"; "bool"].
Proof.
  unfold new_output_entry.
  destruct (py_get config "type" (VStr "str")) as [ft|e]; [|discriminate].
  destruct ft as [| | | |t| |]; try discriminate.
  intros H. exists t. split; [reflexivity|].
  destruct (String.eqb t "str") eqn:E1.
  { apply String.eqb_eq in E1. subst. simpl. auto. }
  destruct (String.eqb t "int") eqn:E2.
  { apply String.eqb_eq in E2. subst. simpl. auto. }
  destruct (String.eqb t "float") eqn:E3.
  { apply String.eqb_eq in E3. subst. simpl. auto. }
  simpl in H.
  destruct (String.eqb t "bool") eqn:E4; [|discriminate].
  apply String.eqb_eq in E4. subst. simpl. auto.
Qed.

Lemma new_output_loop_keys (ew : example_widgets) (items : dict) :
  forall (acc out : dict),
    new_output_loop ew items acc = Ret out ->
    forall name, In name (dict_keys out) ->
      In name (dict_keys acc)
      \/ exists config t,
           In (name, config) items /\
           py_get config "type" (VStr "str") = Ret (VStr t) /\
           In t ["str"; "int"; "float"; "bool"].
Proof.
  induction items as [|[n c] items IH]; intros acc out H name Hin; simpl in H.
  - inversion H; subst. auto.
  - destruct (new_output_entry ew n c) as [[x|]|e] eqn:He; [| |discriminate].
    + destruct (IH _ _ H name Hin) as [Hacc|(config & t & Hc & Ht & Hk)].
      * apply dict_keys_set_in in Hacc. destruct Hacc as [->|Hacc]; auto.
        right. destruct (new_output_entry_typed ew n c x He) as (t & Ht & Hk).
        exists c, t. simpl. auto.
      * right. exists config, t. simpl. auto.
    + destruct (IH _ _ H name Hin) as [Hacc|(config & t & Hc & Ht & Hk)]; auto.
      right. exists config, t. simpl. auto.
Qed.

(** X29.  The "Add New Example" form offers a value only for the fields of
    type [str], [int], [float] and [bool] (a field without a type counts as
    [str]): every key of [new_output] is such a field of [structure].  A
    field of type [list], which "Add Field" offers, never gets a value in a
    new example. *)
Theorem new_output_skips_list_fields (ew : example_widgets) (items out : dict) :
  new_output_of ew (VDict items) = Ret out ->
  (forall name, In name (dict_keys out) ->
     exists config t,
       In (name, config) items /\
       py_get config "type" (VStr "str") = Ret (VStr t) /\
       In t ["str"; "int"; "float"; "bool"])
  /\ (NoDup (dict_keys items) ->
      forall name config,
        In (name, config) items ->
        py_get config "type" (VStr "str") = Ret (VStr "list") ->
        dict_get name out = None).
Proof.
  intros H. simpl in H.
  assert (forall name, In name (dict_keys out) ->
            exists config t,
              In (name, config) items /\
              py_get config "type" (VStr "str") = Ret (VStr t) /\
              In t ["str"; "int"; "float"; "bool"]) as Hkeys.
  { intros name Hin.
    destruct (new_output_loop_keys ew items [] out H name Hin) as [[]|Hex].
    exact Hex. }
  split; [exact Hkeys|].
  intros Hnodup name config Hin Hlist.
  apply dict_get_not_in_keys. intros Hout.
  destruct (Hkeys name Hout) as (config' & t & Hin' & Ht & Hk).
  assert (config' = config) as ->.
  { clear - Hnodup Hin Hin'. unfold dict_keys in Hnodup.
    induction items as [|[n c] items IH]; [contradiction|].
    simpl in Hnodup. inversion Hnodup as [|? ? Hnot Hrest]; subst.
    destruct Hin as [E|Hin], Hin' as [E'|Hin'].
    - congruence.
    - inversion E; subst. exfalso. apply Hnot.
      apply (in_map fst) in Hin'. exact Hin'.
    - inversion E'; subst. exfalso. apply Hnot.
      apply (in_map fst) in Hin. exact Hin.
    - now apply IH. }
  rewrite Hlist in Ht. inversion Ht; subst.
  simpl in Hk. repeat (destruct Hk as [Hk|Hk]; [discriminate|]). exact Hk.
Qed.

End MoreProperties.

(** ** The rest of the script on concrete runs *)


Lemma save_settings_false_after_write_witness :
  exists w',
    @save_settings flow_yaml default_settings (write_only_world default_settings)
    = (Normal false, w')
    /\ disk w' = Some (FlowYaml.emit default_settings).
Proof.
  apply (@save_settings_false_after_write flow_yaml default_settings
           (write_only_world default_settings)).
  - discriminate.
  - reflexivity.
  - left. reflexivity.
Defined.

Lemma load_settings_keeps_existing_file_witness :
  exists doc w',
    @load_settings flow_yaml world_with_empty_file = (Normal doc, w')
    /\ disk w' = Some "{}".
Proof.
  destruct (@load_settings_keeps_existing_file flow_yaml world_with_empty_file
              "{}" eq_refl)
    as (doc & w' & Hrun & Hdisk & _).
  exists doc, w'. split; [exact Hrun|exact Hdisk].
Defined.

Lemma load_settings_failure_warns_witness :
  @load_settings flow_yaml (world_with_file "{")
  = (Normal default_settings,
     show (Warning "Error loading settings: could not read a flow-style document")
       (world_with_file "{")).
Proof.
  apply (@load_settings_failure_warns flow_yaml (world_with_file "{") "{"
           (YAMLError "could not read a flow-style document")).
  - reflexivity.
  - right. split; reflexivity.
Defined.

Lemma load_settings_returns_parsed_witness :
  let doc := VDict [ ("input_csv", VStr "other.csv") ] in
  @load_settings flow_yaml (world_with_file (FlowYaml.emit doc))
  = (Normal doc, world_with_file (FlowYaml.emit doc)).
Proof.
  cbv zeta.
  apply (@load_settings_returns_parsed flow_yaml
           (world_with_file
              (FlowYaml.emit (VDict [ ("input_csv", VStr "other.csv") ])))
           (FlowYaml.emit (VDict [ ("input_csv", VStr "other.csv") ])));
    vm_compute; reflexivity.
Defined.

Lemma load_settings_absent_witness :
  exists w',
    @load_settings flow_yaml (read_only_world default_settings)
    = (Normal default_settings, w')
    /\ disk w' = None.
Proof.
  destruct (@load_settings_absent flow_yaml (read_only_world default_settings)
              eq_refl)
    as (w' & Hrun & Hdisk & _).
  exists w'. split; [exact Hrun|exact Hdisk].
Defined.


Lemma update_and_save_assigns_witness :
  let w := world_with_session default_settings in
  session_at (snd (@update_and_save flow_yaml "search.results" (VInt 5) w))
    ["search"; "results"]
  = Some (VInt 5).
Proof.
  cbv zeta.
  apply (@update_and_save_assigns flow_yaml "search.results" (VInt 5)
           (world_with_session default_settings)
           (snd (@update_and_save flow_yaml "search.results" (VInt 5)
                   (world_with_session default_settings)))
           true).
  vm_compute. reflexivity.
Defined.

Lemma update_and_save_returns_iff_witness :
  let w := world_with_session default_settings in
  (exists b w', @update_and_save flow_yaml "model.family.size" (VInt 7) w
                = (Normal b, w'))
  /\ ~ (exists b w', @update_and_save flow_yaml "input_csv.x" (VInt 7) w
                     = (Normal b, w')).
Proof.
  cbv zeta. split.
  - apply (@update_and_save_returns_iff flow_yaml "model.family.size" (VInt 7)
             (world_with_session default_settings) default_settings eq_refl).
    reflexivity.
  - intros H.
    apply (@update_and_save_returns_iff flow_yaml "input_csv.x" (VInt 7)
             (world_with_session default_settings) default_settings eq_refl)
      in H.
    discriminate H.
Defined.

Lemma save_prompt_settings_as_updates_witness :
  let w := world_with_session default_settings in
  outcome_of (@save_prompt_settings flow_yaml "s" "u" true w)
  = outcome_of
      ((@update_and_save flow_yaml "prompt.system" (VStr "s") ;;
        @update_and_save flow_yaml "prompt.user" (VStr "u") ;;
        @update_and_save flow_yaml "logfire" (VBool true)) w).
Proof.
  cbv zeta.
  apply (@save_prompt_settings_as_updates flow_yaml "s" "u" true
           (world_with_session default_settings)).
  intros s H. discriminate H.
Defined.



Lemma import_accepts_non_mapping_witness :
  let doc := VList [ VStr "a"; VStr "b" ] in
  let w := world_with_session default_settings in
  let w1 := snd (@import_configuration flow_yaml (FlowYaml.emit doc) w) in
  disk w1 = Some (FlowYaml.emit doc)
  /\ exists w2,
       @startup flow_yaml (new_session w1) = (Normal tt, w2) /\
       session_settings w2 = Some doc.
Proof.
  cbv zeta.
  destruct (@import_accepts_non_mapping flow_yaml
              (world_with_session default_settings)
              (FlowYaml.emit (VList [ VStr "a"; VStr "b" ]))
              (VList [ VStr "a"; VStr "b" ]))
    as (Hdisk & w2 & Hstart & Hsession & _);
    try (vm_compute; reflexivity).
  split; [exact Hdisk|]. exists w2. split; [exact Hstart|exact Hsession].
Defined.

Lemma import_then_force_reload_witness :
  let doc := VDict [ ("input_csv", VStr "other.csv") ] in
  let w := world_with_session default_settings in
  exists w2,
    @force_reload flow_yaml (pressing "Force Reload Settings")
      (snd (@import_configuration flow_yaml (FlowYaml.emit doc) w))
    = (RerunScript, w2)
    /\ session_settings w2 = Some doc.
Proof.
  cbv zeta.
  destruct (@import_then_force_reload flow_yaml
              (world_with_session default_settings)
              (FlowYaml.emit (VDict [ ("input_csv", VStr "other.csv") ]))
              (VDict [ ("input_csv", VStr "other.csv") ])
              (pressing "Force Reload Settings"))
    as (w2 & Hrun & Hsession & _);
    try (vm_compute; reflexivity).
  exists w2. split; [exact Hrun|exact Hsession].
Defined.


Lemma export_stable_under_import_witness :
  let w := world_with_session default_settings in
  disk (snd (@import_configuration flow_yaml
               (@yaml_dump flow_yaml true default_settings) w))
  = Some (@yaml_dump flow_yaml true default_settings).
Proof.
  cbv zeta.
  apply (@export_stable_under_import flow_yaml
           (world_with_session default_settings) default_settings).
  - discriminate.
  - reflexivity.
  - vm_compute. reflexivity.
Defined.



Lemma options_survive_text_area_witness :
  option_lines (options_text ["Manufacturing"; "Forestry and Fishing"; "Other"])
  = ["Manufacturing"; "Forestry and Fishing"; "Other"].
Proof.
  apply options_survive_text_area.
  repeat constructor.
Defined.


Lemma new_output_skips_list_fields_witness :
  let items :=
    [ ("tags", VDict [ ("type", VStr "list"); ("description", VStr "") ]);
      ("industry",
        VDict [ ("type", VStr "str");
                ("options", VList [ VStr "Manufacturing"; VStr "Other" ]) ]);
      ("size", VDict [ ("type", VStr "int") ]) ] in
  new_output_of untouched_form (VDict items)
  = Ret [ ("industry", VStr "Manufacturing"); ("size", VFloat 0) ]
  /\ dict_get "tags" [ ("industry", VStr "Manufacturing"); ("size", VFloat 0) ]
     = None.
Proof.
  cbv zeta. split; [reflexivity|].
  destruct (new_output_skips_list_fields untouched_form
              [ ("tags", VDict [ ("type", VStr "list"); ("description", VStr "") ]);
                ("industry",
                  VDict [ ("type", VStr "str");
                          ("options", VList [ VStr "Manufacturing"; VStr "Other" ]) ]);
                ("size", VDict [ ("type", VStr "int") ]) ]
              [ ("industry", VStr "Manufacturing"); ("size", VFloat 0) ]
              eq_refl)
    as [_ Hlist].
  apply (Hlist
           ltac:(repeat constructor; simpl; intuition discriminate)
           "tags"
           (VDict [ ("type", VStr "list"); ("description", VStr "") ])).
  - left. reflexivity.
  - reflexivity.
Defined.
